(** * A shallow embedding of the data-scraping service ([main.py])

    The service keeps two pieces of process-wide state: the bounded history
    of price records ([crypto_data_store]) and the per-client table of
    request timestamps used by the sliding-window rate limiter
    ([request_times]).  Handlers are modelled in a small state-and-exception
    monad; everything the handlers read from the outside world (the clock,
    the upstream HTTP responses) is an explicit argument.

    Modelling conventions
    - Python [str] is a Rocq [string]; [upper] and [strip] are [str.upper]
      and [str.strip] on ASCII text.  The price fetcher, whose result
      depends on the two built-ins, is also given with them as parameters
      ([scrape_crypto_prices_with]).
    - A [datetime] is an integer number of microseconds ([Z]); a
      [timedelta] is a difference of two such numbers.
    - A JSON object / Python [dict] with string keys is a [gmap string _].
    - The lock [data_lock] makes each store operation atomic; one call of a
      store operation is one step of the model. *)

From Stdlib Require Import ZArith Ascii String.
From stdpp Require Import gmap strings list fin_maps.

Local Open Scope string_scope.
Local Open Scope list_scope.
Local Open Scope Z_scope.

(** ** Python values and dictionaries *)

(** The scalar values that occur as fields of the JSON objects handled by
    the service.  Numbers are integers here; the service carries numbers
    around and never computes with them. *)
Inductive pyval : Type :=
  | PNone
  | PStr (s : string)
  | PNum (n : Z).

#[global] Instance pyval_eq_dec : EqDecision pyval.
Proof. solve_decision. Defined.

Definition pyval_encode (v : pyval) : unit + (string + Z) :=
  match v with
  | PNone => inl ()
  | PStr s => inr (inl s)
  | PNum n => inr (inr n)
  end.

Definition pyval_decode (x : unit + (string + Z)) : pyval :=
  match x with
  | inl _ => PNone
  | inr (inl s) => PStr s
  | inr (inr n) => PNum n
  end.

#[global] Instance pyval_countable : Countable pyval.
Proof.
  apply (inj_countable' pyval_encode pyval_decode).
  intros []; reflexivity.
Defined.

Abbreviation pydict := (gmap string pyval).

(** [d.get(k)] and [d.get(k, dflt)]. *)
Definition dict_get (d : pydict) (k : string) (dflt : pyval) : pyval :=
  default dflt (d !! k).

(** ** Python slices

    [slice_bound len i] is the position a slice bound [i] denotes in a
    sequence of length [len]: negative bounds count from the end, and every
    bound is clamped to [0 .. len]. *)
Definition slice_bound (len : nat) (i : Z) : nat :=
  if i <? 0 then Z.to_nat (Z.max 0 (Z.of_nat len + i))
  else Z.to_nat (Z.min i (Z.of_nat len)).

(** [l[i:]] *)
Definition slice_from {A} (i : Z) (l : list A) : list A :=
  drop (slice_bound (length l) i) l.

(** [l[:i]] *)
Definition slice_to {A} (i : Z) (l : list A) : list A :=
  take (slice_bound (length l) i) l.

(** The last [n] elements of a list (the whole list when it is shorter). *)
Definition last_n {A} (n : nat) (l : list A) : list A :=
  drop (length l - n)%nat l.

(** ** Exceptions, outcomes and the handler monad *)

Inductive exn : Type :=
  | HTTPException (status_code : Z) (detail : string)
  | KeyError (key : string)
  | AttributeError (msg : string)
  | RequestException (msg : string).

(** [str(e)] as used in the handlers' error details. *)
Definition str_exn (e : exn) : string :=
  match e with
  | HTTPException c d => d
  | KeyError k => "'" +:+ k +:+ "'"
  | AttributeError m => m
  | RequestException m => m
  end.

Inductive outcome (A : Type) : Type :=
  | Return (a : A)
  | Raise (e : exn).
Arguments Return {A} a.
Arguments Raise {A} e.

Definition obind {A B} (m : outcome A) (k : A → outcome B) : outcome B :=
  match m with
  | Return a => k a
  | Raise e => Raise e
  end.

Module CONFIG.

Definition API_KEY : string := "kingvon".
Definition REQUEST_DELAY : Z := 1.
Definition MAX_REQUESTS_PER_MINUTE : nat := 60.

End CONFIG.

(** The two module-level globals. *)
Record state : Type := State {
  crypto_data_store : list pydict;
  request_times : gmap string (list Z)
}.

Definition init_state : state :=
  {| crypto_data_store := []; request_times := ∅ |}.

Definition set_store (st : list pydict) (s : state) : state :=
  {| crypto_data_store := st; request_times := request_times s |}.

Definition set_request_times (rt : gmap string (list Z)) (s : state) : state :=
  {| crypto_data_store := crypto_data_store s; request_times := rt |}.

(** A computation reads and writes the globals and either returns or
    raises; writes made before an exception are kept. *)
Definition M (A : Type) : Type := state → outcome A * state.

Definition ret {A} (a : A) : M A := λ s, (Return a, s).
Definition raise {A} (e : exn) : M A := λ s, (Raise e, s).
Definition bind {A B} (m : M A) (k : A → M B) : M B :=
  λ s, match m s with
       | (Return a, s') => k a s'
       | (Raise e, s') => (Raise e, s')
       end.
Definition lift {A} (o : outcome A) : M A := λ s, (o, s).

(** [try: body except Exception as e: handler e] *)
Definition try_except {A} (body : M A) (handler : exn → M A) : M A :=
  λ s, match body s with
       | (Return a, s') => (Return a, s')
       | (Raise e, s') => handler e s'
       end.

Notation "'let*' x ':=' m 'in' k" := (bind m (λ x, k))
  (at level 10, x name, m at level 100, k at level 200, only parsing).
Notation "m1 ';;' m2" := (bind m1 (λ _, m2))
  (at level 100, m2 at level 200, right associativity, only parsing).

Definition get_store : M (list pydict) := λ s, (Return (crypto_data_store s), s).
Definition put_store (st : list pydict) : M unit := λ s, (Return (), set_store st s).
Definition get_request_times : M (gmap string (list Z)) :=
  λ s, (Return (request_times s), s).
Definition put_request_times (rt : gmap string (list Z)) : M unit :=
  λ s, (Return (), set_request_times rt s).

(** ** The bounded history store *)

(** [load_data]: a copy of the store. *)
Definition load_data : M (list pydict) := get_store.

(** [save_data]: extend the store with [data]; when the store is then
    longer than 1000, keep [crypto_data_store[-500:]]. *)
Definition save_data (data : list pydict) : M unit :=
  let* store := get_store in
  let store := store ++ data in
  if (1000 <? length store)%nat
  then put_store (slice_from (-500) store)
  else put_store store.

(** The body of [clear_stored_data] under the lock. *)
Definition clear_store : M unit := put_store [].

(** The store after running a computation. *)
Definition store_after {A} (m : M A) (s : state) : list pydict :=
  crypto_data_store (snd (m s)).

(** ** The sliding-window rate limiter *)

(** The part of a FastAPI [Request] the service reads:
    [request.client.host]. *)
Record Request : Type := { client_host : string }.

(** [timedelta(minutes=1)], in microseconds. *)
Definition one_minute : Z := 60000000.

(** [request_times[client_ip]]; the limiter only reads an entry after it
    has made sure the key is present. *)
Definition times_of (rt : gmap string (list Z)) (client_ip : string) : list Z :=
  default [] (rt !! client_ip).

(** The list comprehension of [rate_limit_check]: the timestamps that are
    less than one minute before [current_time]. *)
Definition recent (current_time : Z) (times : list Z) : list Z :=
  filter (λ req_time, current_time - req_time < one_minute) times.

(** [current_time] is the reading of [datetime.now()] made by the call. *)
Definition rate_limit_check (request : Request) (current_time : Z) : M bool :=
  let client_ip := client_host request in
  let* rt := get_request_times in
  match rt !! client_ip with
  | None => put_request_times (<[client_ip := []]> rt)
  | Some _ => ret ()
  end ;;
  let* rt := get_request_times in
  put_request_times (<[client_ip := recent current_time (times_of rt client_ip)]> rt) ;;
  let* rt := get_request_times in
  if (CONFIG.MAX_REQUESTS_PER_MINUTE <=? length (times_of rt client_ip))%nat
  then raise (HTTPException 429 "Rate limit exceeded")
  else
    let* rt := get_request_times in
    put_request_times (<[client_ip := times_of rt client_ip ++ [current_time]]> rt) ;;
    ret true.

(** [x_api_key] is the value of the request header, [None] when the header
    is absent. *)
Definition verify_api_key (request : Request) (x_api_key : option string)
    (current_time : Z) : M bool :=
  rate_limit_check request current_time ;;
  if decide (x_api_key ≠ Some CONFIG.API_KEY)
  then raise (HTTPException 401 "Invalid API Key")
  else ret true.

(** A protected route: [Depends(verify_api_key)] runs before the handler
    body. *)
Definition Depends_verify_api_key {A} (request : Request)
    (x_api_key : option string) (current_time : Z) (handler : M A) : M A :=
  verify_api_key request x_api_key current_time ;; handler.

(** Did a computation return (rather than raise)? *)
Definition returned {A} (r : outcome A * state) : bool :=
  match r.1 with
  | Return _ => true
  | Raise _ => false
  end.

(** A client issuing one check at each of the given clock readings, in
    order; the result tells for each check whether it was admitted. *)
Fixpoint run_checks (request : Request) (times : list Z) (s : state)
    : list bool * state :=
  match times with
  | [] => ([], s)
  | t :: times' =>
      let r := rate_limit_check request t s in
      let '(admits, s') := run_checks request times' (snd r) in
      (returned r :: admits, s')
  end.

(** How many of the checks were admitted. *)
Definition admitted_count (admits : list bool) : nat :=
  length (filter (λ b, b = true) admits).

(** All the readings lie in the 60-second window starting at [start]. *)
Definition in_window (start : Z) (times : list Z) : Prop :=
  Forall (λ t, start ≤ t < start + one_minute) times.

(** ** Strings: [str.upper], [str.strip], [str.split(",")]

    [upper] and [strip] are the two built-ins on ASCII text: on a string
    without non-ASCII characters they return what Python returns.  Python's
    own functions also change and strip non-ASCII characters (by the Unicode
    tables of the interpreter); what depends on that is stated for the
    fetcher with the built-ins as parameters, further down. *)

Definition is_lower (c : ascii) : bool :=
  let n := nat_of_ascii c in (97 <=? n)%nat && (n <=? 122)%nat.

Definition upper_char (c : ascii) : ascii :=
  if is_lower c then ascii_of_nat (nat_of_ascii c - 32) else c.

(** [s.upper()] for ASCII text. *)
Fixpoint upper (s : string) : string :=
  match s with
  | EmptyString => EmptyString
  | String c s' => String (upper_char c) (upper s')
  end.

(** The ASCII characters for which [str.isspace] holds (the Unicode spaces
    beyond them are outside this function). *)
Definition is_space (c : ascii) : bool :=
  let n := nat_of_ascii c in
  ((9 <=? n)%nat && (n <=? 13)%nat) || ((28 <=? n)%nat && (n <=? 32)%nat).

Fixpoint lstrip (s : string) : string :=
  match s with
  | EmptyString => EmptyString
  | String c s' => if is_space c then lstrip s' else s
  end.

Fixpoint rstrip (s : string) : string :=
  match s with
  | EmptyString => EmptyString
  | String c s' =>
      match rstrip s' with
      | EmptyString => if is_space c then EmptyString else String c EmptyString
      | r => String c r
      end
  end.

Definition strip (s : string) : string := lstrip (rstrip s).

(** [s.split(",")]: never empty; [n] commas give [n + 1] pieces. *)
Fixpoint split_comma (s : string) : list string :=
  match s with
  | EmptyString => [EmptyString]
  | String c s' =>
      if Ascii.eqb c "," then EmptyString :: split_comma s'
      else match split_comma s' with
           | [] => [String c EmptyString]
           | w :: ws => String c w :: ws
           end
  end.

(** ** The price fetcher *)

Notation "'let!' x ':=' m 'in' k" := (obind m (λ x, k))
  (at level 10, x name, m at level 100, k at level 200, only parsing).

(** [d[k]] *)
Definition getitem (d : pydict) (k : string) : outcome pyval :=
  match d !! k with
  | Some v => Return v
  | None => Raise (KeyError k)
  end.

(** [v.upper()] *)
Definition py_upper (v : pyval) : outcome string :=
  match v with
  | PStr s => Return (upper s)
  | PNone => Raise (AttributeError "'NoneType' object has no attribute 'upper'")
  | PNum _ => Raise (AttributeError "'int' object has no attribute 'upper'")
  end.

(** [symbols.split(",") if symbols else None] *)
Definition symbol_list_of (symbols : option string) : option (list string) :=
  match symbols with
  | None => None
  | Some EmptyString => None
  | Some s => Some (split_comma s)
  end.

(** The condition of the [continue]:
    [symbol_list and coin['symbol'].upper() not in
       [s.upper().strip() for s in symbol_list]]. *)
Definition filtered_out (symbol_list : option (list string)) (coin : pydict)
    : outcome bool :=
  match symbol_list with
  | None | Some [] => Return false
  | Some sl =>
      let! v := getitem coin "symbol" in
      let! sym := py_upper v in
      Return (negb (bool_decide (sym ∈ (λ s, strip (upper s)) <$> sl)))
  end.

(** The dictionary literal [crypto_info]; [now] is the reading of
    [datetime.now().isoformat()]. *)
Definition crypto_info_of (coin : pydict) (now : string) : outcome pydict :=
  let! v := getitem coin "symbol" in
  let! sym := py_upper v in
  let! name := getitem coin "name" in
  let! price := getitem coin "current_price" in
  Return (<["symbol" := PStr sym]>
         (<["name" := name]>
         (<["price" := price]>
         (<["market_cap" := dict_get coin "market_cap" PNone]>
         (<["volume_24h" := dict_get coin "total_volume" PNone]>
         (<["change_24h" := dict_get coin "price_change_percentage_24h" PNone]>
         (<["timestamp" := PStr now]> ∅))))))).

(** The [for coin in data] loop.  [clock k] is the clock reading taken for
    the record appended at position [k] of [result]. *)
Fixpoint scrape_loop (symbol_list : option (list string)) (clock : nat → string)
    (data : list pydict) (result : list pydict) : outcome (list pydict) :=
  match data with
  | [] => Return result
  | coin :: data' =>
      let! skip := filtered_out symbol_list coin in
      if skip : bool then scrape_loop symbol_list clock data' result
      else
        let! crypto_info := crypto_info_of coin (clock (length result)) in
        scrape_loop symbol_list clock data' (result ++ [crypto_info])
  end.

(** [coingecko per_page] stands for the upstream call
    [requests.get(...); raise_for_status(); response.json()]. *)
Definition scrape_crypto_prices (symbols : option string) (limit : Z)
    (coingecko : Z → outcome (list pydict)) (clock : nat → string)
    : outcome (list pydict) :=
  let! data := coingecko limit in
  let symbol_list := symbol_list_of symbols in
  scrape_loop symbol_list clock data [].

(** The ticker of an upstream coin: its [symbol] field. *)
Definition ticker (coin : pydict) : string :=
  match coin !! "symbol" with
  | Some (PStr s) => s
  | _ => EmptyString
  end.

(** An upstream coin carrying what the fetcher subscripts: a string
    [symbol], a [name] and a [current_price]. *)
Definition well_formed_coin (coin : pydict) : Prop :=
  (∃ s, coin !! "symbol" = Some (PStr s))
  ∧ is_Some (coin !! "name")
  ∧ is_Some (coin !! "current_price").

(** [record] is the price record of [coin]: the ticker upper-cased, the
    other fields copied. *)
Definition record_for (coin record : pydict) : Prop :=
  record !! "symbol" = Some (PStr (upper (ticker coin)))
  ∧ record !! "name" = coin !! "name"
  ∧ record !! "price" = coin !! "current_price"
  ∧ record !! "market_cap" = Some (dict_get coin "market_cap" PNone)
  ∧ record !! "volume_24h" = Some (dict_get coin "total_volume" PNone)
  ∧ record !! "change_24h"
    = Some (dict_get coin "price_change_percentage_24h" PNone).

(** ** The price fetcher with the string built-ins as parameters

    [str.upper] and [str.strip] work on Unicode text, by tables that are not
    part of the repository.  Here the fetcher is given once more, with the
    two built-ins as parameters; instantiated with [upper] and [strip], their
    ASCII forms, it is [scrape_crypto_prices]. *)
Section StringBuiltins.

Variable str_upper : string → string.
Variable str_strip : string → string.

(** [v.upper()] *)
Definition py_upper_with (v : pyval) : outcome string :=
  match v with
  | PStr s => Return (str_upper s)
  | PNone => Raise (AttributeError "'NoneType' object has no attribute 'upper'")
  | PNum _ => Raise (AttributeError "'int' object has no attribute 'upper'")
  end.

(** The condition of the [continue]. *)
Definition filtered_out_with (symbol_list : option (list string))
    (coin : pydict) : outcome bool :=
  match symbol_list with
  | None | Some [] => Return false
  | Some sl =>
      let! v := getitem coin "symbol" in
      let! sym := py_upper_with v in
      Return (negb (bool_decide (sym ∈ (λ s, str_strip (str_upper s)) <$> sl)))
  end.

(** The dictionary literal [crypto_info]. *)
Definition crypto_info_of_with (coin : pydict) (now : string) : outcome pydict :=
  let! v := getitem coin "symbol" in
  let! sym := py_upper_with v in
  let! name := getitem coin "name" in
  let! price := getitem coin "current_price" in
  Return (<["symbol" := PStr sym]>
         (<["name" := name]>
         (<["price" := price]>
         (<["market_cap" := dict_get coin "market_cap" PNone]>
         (<["volume_24h" := dict_get coin "total_volume" PNone]>
         (<["change_24h" := dict_get coin "price_change_percentage_24h" PNone]>
         (<["timestamp" := PStr now]> ∅))))))).

(** The [for coin in data] loop. *)
Fixpoint scrape_loop_with (symbol_list : option (list string))
    (clock : nat → string) (data : list pydict) (result : list pydict)
    : outcome (list pydict) :=
  match data with
  | [] => Return result
  | coin :: data' =>
      let! skip := filtered_out_with symbol_list coin in
      if skip : bool then scrape_loop_with symbol_list clock data' result
      else
        let! crypto_info := crypto_info_of_with coin (clock (length result)) in
        scrape_loop_with symbol_list clock data' (result ++ [crypto_info])
  end.

Definition scrape_crypto_prices_with (symbols : option string) (limit : Z)
    (coingecko : Z → outcome (list pydict)) (clock : nat → string)
    : outcome (list pydict) :=
  let! data := coingecko limit in
  let symbol_list := symbol_list_of symbols in
  scrape_loop_with symbol_list clock data [].

(** The coin passes the filter: its upper-cased ticker is one of the
    entries of the comma-separated filter, upper-cased and stripped. *)
Definition matches_filter (symbols : string) (coin : pydict) : Prop :=
  Exists (λ entry, str_upper (ticker coin) = str_strip (str_upper entry))
         (split_comma symbols).

#[global] Instance matches_filter_dec (symbols : string) (coin : pydict) :
  Decision (matches_filter symbols coin).
Proof. unfold matches_filter. apply _. Defined.

(** [record] is the price record of [coin]: the ticker upper-cased, the
    other fields copied. *)
Definition price_record_of (coin record : pydict) : Prop :=
  record !! "symbol" = Some (PStr (str_upper (ticker coin)))
  ∧ record !! "name" = coin !! "name"
  ∧ record !! "price" = coin !! "current_price"
  ∧ record !! "market_cap" = Some (dict_get coin "market_cap" PNone)
  ∧ record !! "volume_24h" = Some (dict_get coin "total_volume" PNone)
  ∧ record !! "change_24h"
    = Some (dict_get coin "price_change_percentage_24h" PNone).

(** What the loop subscripts in a coin under the filter [symbols]: the
    [symbol], a string, of every coin; the [name] and the [current_price]
    of the coins that pass the filter. *)
Definition fetchable_coin (symbols : string) (coin : pydict) : Prop :=
  (∃ s, coin !! "symbol" = Some (PStr s))
  ∧ (matches_filter symbols coin →
     is_Some (coin !! "name") ∧ is_Some (coin !! "current_price")).

End StringBuiltins.

(** ** The news fetcher *)

(** What the fetcher reads of one [<item>] of the feed: for each of the four
    tags, the [.text] of the first such tag inside the item, or [None] when
    [item.find] finds no such tag. *)
Record rss_item : Type := {
  item_title : option string;
  item_link : option string;
  item_pubDate : option string;
  item_description : option string
}.

Record news_item : Type := {
  title : string;
  url : string;
  source : string;
  published_at : string;
  summary : string
}.

(** [item.find(tag).text.strip()] *)
Definition find_text_strip (found : option string) : outcome string :=
  match found with
  | Some text => Return (strip text)
  | None => Raise (AttributeError "'NoneType' object has no attribute 'text'")
  end.

(** The body of the [try] block. *)
Definition parse_item (item : rss_item) : outcome news_item :=
  let! title := find_text_strip (item_title item) in
  let! link := find_text_strip (item_link item) in
  let! pub_date := find_text_strip (item_pubDate item) in
  let description := item_description item in
  let desc_text :=
    match description with
    | Some text => strip text
    | None => "No description"
    end in
  Return {| title := title;
            url := link;
            source := "CoinDesk";
            published_at := pub_date;
            summary := if (200 <? String.length desc_text)%nat
                       then substring 0 200 desc_text +:+ "..."
                       else desc_text |}.

(** The [for item in items] loop with its [try ... except: continue]. *)
Fixpoint news_loop (items : list rss_item) (news_data : list news_item)
    : list news_item :=
  match items with
  | [] => news_data
  | item :: items' =>
      match parse_item item with
      | Return news => news_loop items' (news_data ++ [news])
      | Raise _ => news_loop items' news_data
      end
  end.

(** [coindesk] stands for the upstream call followed by
    [soup.find_all('item')]. *)
Definition scrape_crypto_news (limit : Z) (coindesk : outcome (list rss_item))
    : outcome (list news_item) :=
  let! all_items := coindesk in
  let items := slice_to limit all_items in
  Return (news_loop items []).

(** The item has the three tags the loop body dereferences. *)
Definition has_required_fields (item : rss_item) : Prop :=
  is_Some (item_title item)
  ∧ is_Some (item_link item)
  ∧ is_Some (item_pubDate item).

#[global] Instance has_required_fields_dec (item : rss_item) :
  Decision (has_required_fields item).
Proof. unfold has_required_fields. apply _. Defined.

(** [news] is the news item of the feed item [item]. *)
Definition news_for (item : rss_item) (news : news_item) : Prop :=
  Some (title news) = strip <$> item_title item
  ∧ Some (url news) = strip <$> item_link item
  ∧ Some (published_at news) = strip <$> item_pubDate item
  ∧ source news = "CoinDesk"
  ∧ match item_description item with
    | None => summary news = "No description"
    | Some text =>
        summary news =
          if (200 <? String.length (strip text))%nat
          then substring 0 200 (strip text) +:+ "..."
          else strip text
    end.

(** ** Route handlers *)

Record prices_response : Type := {
  data : list pydict;
  count : nat
}.

Definition get_crypto_prices (symbols : option string)
    (coingecko : Z → outcome (list pydict)) (clock : nat → string)
    : M prices_response :=
  try_except
    (let* result := lift (scrape_crypto_prices symbols 10 coingecko clock) in
     let* existing_data := load_data in
     let existing_data := existing_data ++ result in
     save_data existing_data ;;
     ret {| data := result; count := length result |})
    (λ e, raise (HTTPException 500 ("Failed to fetch crypto data: " +:+ str_exn e))).

(** The route [GET /crypto/prices]. *)
Definition GET_crypto_prices (request : Request) (x_api_key : option string)
    (current_time : Z) (symbols : option string)
    (coingecko : Z → outcome (list pydict)) (clock : nat → string)
    : M prices_response :=
  Depends_verify_api_key request x_api_key current_time
    (get_crypto_prices symbols coingecko clock).

Record history_response : Type := {
  stored_data : list pydict;
  history_total_records : nat
}.

Definition get_stored_data (limit : Z) : M history_response :=
  try_except
    (let* data := load_data in
     let data := if decide (limit ≠ 0) then slice_from (- limit) data else data in
     ret {| stored_data := data; history_total_records := length data |})
    (λ e, raise (HTTPException 500 ("Failed to load data: " +:+ str_exn e))).

Record statistics : Type := {
  total_records : nat;
  unique_symbols : nat;
  symbol_counts : gmap pyval nat;
  last_updated : pyval
}.

Inductive stats_response : Type :=
  | StatsMessage (message : string)
  | Statistics (stats : statistics).

(** [record.get('symbol', 'UNKNOWN')] *)
Definition symbol_of (record : pydict) : pyval :=
  dict_get record "symbol" (PStr "UNKNOWN").

(** One iteration of the counting loop. *)
Definition count_symbol (symbols : gmap pyval nat) (record : pydict)
    : gmap pyval nat :=
  let symbol := symbol_of record in
  match symbols !! symbol with
  | Some n => <[symbol := (n + 1)%nat]> symbols
  | None => <[symbol := 1%nat]> symbols
  end.

(** How often a symbol occurs in a list of symbols. *)
Definition occurrences (symbol : pyval) (symbols : list pyval) : nat :=
  length (filter (λ x, x = symbol) symbols).

Definition get_data_statistics : M stats_response :=
  try_except
    (let* data := load_data in
     match data with
     | [] => ret (StatsMessage "No data available")
     | _ =>
         let symbols := foldl count_symbol ∅ data in
         let total_records := length data in
         ret (Statistics
                {| total_records := total_records;
                   unique_symbols := size symbols;
                   symbol_counts := symbols;
                   last_updated :=
                     match last data with
                     | Some record => dict_get record "timestamp" PNone
                     | None => PNone
                     end |})
     end)
    (λ e, raise (HTTPException 500 ("Failed to calculate stats: " +:+ str_exn e))).

Definition clear_stored_data : M string :=
  try_except
    (clear_store ;;
     ret "All stored data cleared successfully")
    (λ e, raise (HTTPException 500 ("Failed to clear data: " +:+ str_exn e))).

(** ** Histories of the store

    One completed operation on the store: an append, a load, or the clear
    route. *)
Inductive store_op : Type :=
  | OpSave (data : list pydict)
  | OpLoad
  | OpClear.

Definition run_op (o : store_op) (s : state) : state :=
  match o with
  | OpSave data => snd (save_data data s)
  | OpLoad => snd (load_data s)
  | OpClear => snd (clear_stored_data s)
  end.

(** The states the service can be in after finitely many operations. *)
Inductive reachable : state → Prop :=
  | reach_init : reachable init_state
  | reach_step o s : reachable s → reachable (run_op o s).

(** ** Sample data used in the examples *)

Definition coin_of (symbol name : string) (price : Z) : pydict :=
  <["symbol" := PStr symbol]>
  (<["name" := PStr name]>
  (<["current_price" := PNum price]>
  (<["market_cap" := PNum 1000]>
  (<["total_volume" := PNum 100]>
  (<["price_change_percentage_24h" := PNum 1]> ∅))))).

Definition btc_coin : pydict := coin_of "btc" "Bitcoin" 67000.
Definition eth_coin : pydict := coin_of "eth" "Ethereum" 3500.
Definition sol_coin : pydict := coin_of "sol" "Solana" 150.

Definition record_of (symbol name : string) (price : Z) (now : string) : pydict :=
  <["symbol" := PStr symbol]>
  (<["name" := PStr name]>
  (<["price" := PNum price]>
  (<["market_cap" := PNum 1000]>
  (<["volume_24h" := PNum 100]>
  (<["change_24h" := PNum 1]>
  (<["timestamp" := PStr now]> ∅)))))).

Definition btc_record : pydict := record_of "BTC" "Bitcoin" 67000 "2024-05-01T12:00:00".
Definition eth_record : pydict := record_of "ETH" "Ethereum" 3500 "2024-05-01T12:00:05".

Definition sample_clock : nat → string :=
  λ k, match k with
       | O => "2024-05-01T12:00:05"
       | S _ => "2024-05-01T12:00:06"
       end.

Definition sample_item (n : string) : rss_item :=
  {| item_title := Some ("  Headline " +:+ n +:+ " ");
     item_link := Some ("https://www.coindesk.com/" +:+ n);
     item_pubDate := Some "Wed, 01 May 2024 12:00:00 +0000";
     item_description := Some ("Story " +:+ n) |}.

Definition untitled_item : rss_item :=
  {| item_title := None;
     item_link := Some "https://www.coindesk.com/untitled";
     item_pubDate := Some "Wed, 01 May 2024 12:30:00 +0000";
     item_description := Some "Story without a title" |}.

Definition sample_request : Request := {| client_host := "203.0.113.7" |}.

(** ** More of the rate limiter: histories of requests *)

(** Every check comes at least a minute after every timestamp the client
    holds: after the timestamps in [held] for the first check, after the
    previous check for each later one. *)
Fixpoint spaced_after (held : list Z) (times : list Z) : Prop :=
  match times with
  | [] => True
  | t :: times' =>
      Forall (λ x, x + one_minute ≤ t) held ∧ spaced_after [t] times'
  end.

(** One client sending requests through [verify_api_key], each with its own
    header value and clock reading, in order. *)
Fixpoint run_verifies (request : Request) (calls : list (option string * Z))
    (s : state) : list (outcome bool) * state :=
  match calls with
  | [] => ([], s)
  | (x_api_key, t) :: calls' =>
      let r := verify_api_key request x_api_key t s in
      let '(outcomes, s') := run_verifies request calls' (snd r) in
      (fst r :: outcomes, s')
  end.

(** The states of the running service: from the initial state, any client
    may be checked at any time, and any store operation may complete. *)
Inductive served : state → Prop :=
  | served_init : served init_state
  | served_check request now s :
      served s → served (rate_limit_check request now s).2
  | served_op o s : served s → served (run_op o s).

(** ** More sample data *)

(** An upstream coin without a [name]. *)
Definition nameless_coin : pydict :=
  <["symbol" := PStr "xrp"]> (<["current_price" := PNum 1]> ∅).

(** The seven fields of a price record. *)
Definition price_record_fields : gset string :=
  list_to_set ["symbol"; "name"; "price"; "market_cap"; "volume_24h";
               "change_24h"; "timestamp"].

(** An upstream coin without a [symbol]. *)
Definition symbolless_coin : pydict :=
  <["name" := PStr "Mystery"]> (<["current_price" := PNum 2]> ∅).

(** ** The news route *)

Record news_response : Type := {
  news : list news_item;
  news_count : nat
}.

(** [limit] is the query parameter (5 when the request gives none). *)
Definition get_crypto_news (limit : Z) (coindesk : outcome (list rss_item))
    : M news_response :=
  try_except
    (let* result := lift (scrape_crypto_news limit coindesk) in
     ret {| news := result; news_count := length result |})
    (λ e, raise (HTTPException 500 ("Failed to fetch news: " +:+ str_exn e))).

(** A long description, and a feed item carrying it. *)
Definition long_text : string :=
  "Bitcoin climbed above its previous record on Wednesday as traders " +:+
  "weighed fresh inflows into spot funds against a stronger dollar, while " +:+
  "ether and solana followed with smaller gains; analysts pointed to thin " +:+
  "weekend liquidity and a wave of liquidated short positions as the main drivers.".

Definition long_item : rss_item :=
  {| item_title := Some " Markets wrap ";
     item_link := Some "https://www.coindesk.com/markets-wrap";
     item_pubDate := Some "Wed, 01 May 2024 18:00:00 +0000";
     item_description := Some long_text |}.

(** ** The configuration route *)

Record config_response : Type := {
  max_requests_per_minute : nat;
  request_delay : Z;
  storage : string;
  current_records : nat
}.

(** The handler reads [len(crypto_data_store)] directly. *)
Definition get_config : M config_response :=
  let* store := get_store in
  ret {| max_requests_per_minute := CONFIG.MAX_REQUESTS_PER_MINUTE;
         request_delay := CONFIG.REQUEST_DELAY;
         storage := "in-memory";
         current_records := length store |}.

(** The sum of the counts of a [symbol_counts] dictionary. *)
Definition counts_total (symbols : gmap pyval nat) : nat :=
  map_fold (λ _ n acc, (n + acc)%nat) 0%nat symbols.

(** ** Requests to the protected routes

    One request to a protected route, with what the route reads from the
    outside world. *)
Inductive api_call : Type :=
  | CallPrices (symbols : option string) (coingecko : Z → outcome (list pydict))
               (clock : nat → string)
  | CallNews (limit : Z) (coindesk : outcome (list rss_item))
  | CallHistory (limit : Z)
  | CallStats
  | CallConfig
  | CallClear.

(** The state after the request: the key check, then the handler. *)
Definition run_call (request : Request) (x_api_key : option string)
    (current_time : Z) (call : api_call) (s : state) : state :=
  match call with
  | CallPrices symbols coingecko clock =>
      (GET_crypto_prices request x_api_key current_time symbols coingecko clock s).2
  | CallNews limit coindesk =>
      (Depends_verify_api_key request x_api_key current_time
         (get_crypto_news limit coindesk) s).2
  | CallHistory limit =>
      (Depends_verify_api_key request x_api_key current_time
         (get_stored_data limit) s).2
  | CallStats =>
      (Depends_verify_api_key request x_api_key current_time
         get_data_statistics s).2
  | CallConfig =>
      (Depends_verify_api_key request x_api_key current_time get_config s).2
  | CallClear =>
      (Depends_verify_api_key request x_api_key current_time
         clear_stored_data s).2
  end.

(** ** Theorems about the store *)

Lemma slice_from_neg_length {A} (k : nat) (l : list A) :
  (0 < k)%nat →
  slice_from (- Z.of_nat k) l = last_n k l.
Proof.
  intros Hk. unfold slice_from, last_n, slice_bound.
  destruct (Z.ltb_spec (- Z.of_nat k) 0) as [_|]; [|lia].
  f_equal. lia.
Qed.

Lemma length_last_n {A} (n : nat) (l : list A) :
  length (last_n n l) = Nat.min n (length l).
Proof. unfold last_n. rewrite length_drop. lia. Qed.

Lemma store_set_store (st : list pydict) (s : state) :
  crypto_data_store (set_store st s) = st.
Proof. reflexivity. Qed.

Lemma save_data_store (data : list pydict) (s : state) :
  store_after (save_data data) s =
    if (1000 <? length (crypto_data_store s ++ data))%nat
    then last_n 500 (crypto_data_store s ++ data)
    else crypto_data_store s ++ data.
Proof.
  unfold store_after, save_data, bind, get_store, put_store.
  destruct (1000 <? _)%nat; simpl; [|reflexivity].
  apply (slice_from_neg_length 500). lia.
Qed.

Lemma save_data_length_le (data : list pydict) (s : state) :
  (length (store_after (save_data data) s) ≤ 1000)%nat.
Proof.
  rewrite save_data_store.
  destruct (Nat.ltb_spec 1000 (length (crypto_data_store s ++ data))).
  - rewrite length_last_n. lia.
  - lia.
Qed.

(** The last 500 records of a store of 600 equal records extended by a
    batch of 601 records. *)
Lemma last_500_of_600_and_601 (x y : pydict) :
  last_n 500 (replicate 600 x ++ (replicate 600 x ++ [y]))
  = replicate 499 x ++ [y].
Proof.
  unfold last_n. rewrite !length_app, !length_replicate.
  change (length [y]) with 1%nat.
  replace (600 + (600 + 1) - 500)%nat with (600 + 101)%nat by lia.
  rewrite drop_app_ge by (rewrite length_replicate; lia).
  rewrite length_replicate.
  replace (600 + 101 - 600)%nat with 101%nat by lia.
  rewrite drop_app_le by (rewrite length_replicate; lia).
  rewrite drop_replicate. reflexivity.
Qed.

(** C2: [save_data] leaves the store equal to the old contents followed by
    the batch when that combined list has at most 1000 elements, and
    otherwise equal to exactly the last 500 elements of the combined list
    (then the store has exactly 500 elements); the call returns normally and
    does not touch the rate-limit table.  The kept suffix is cut from the
    list after the append, so it can drop elements of the batch itself: a
    batch of 601 records appended to a store of 600 leaves only the last 500
    records of the batch. *)
Theorem save_data_append_then_keep_last_500 :
  (∀ (B : list pydict) (s : state),
     let S := crypto_data_store s in
     save_data B s =
       (Return (),
        set_store (if decide (length (S ++ B) ≤ 1000)%nat
                   then S ++ B
                   else last_n 500 (S ++ B)) s)
     ∧ (if decide (length (S ++ B) ≤ 1000)%nat
        then length (store_after (save_data B) s) = length (S ++ B)
        else length (store_after (save_data B) s) = 500%nat))
  ∧ (let s := set_store (replicate 600 btc_record) init_state in
     let B := replicate 600 btc_record ++ [eth_record] in
     store_after (save_data B) s = replicate 499 btc_record ++ [eth_record]
     ∧ store_after (save_data B) s = last_n 500 B
     ∧ (length (store_after (save_data B) s) < length B)%nat).
Proof.
  split.
  - intros B s S. split.
    + unfold save_data, bind, get_store, put_store. fold S.
      destruct (Nat.ltb_spec 1000 (length (S ++ B))) as [Hgt|Hle];
        case_decide; try lia; try reflexivity.
      do 2 f_equal. apply (slice_from_neg_length 500). lia.
    + rewrite save_data_store. fold S.
      destruct (Nat.ltb_spec 1000 (length (S ++ B))) as [Hgt|Hle];
        case_decide; try lia; try reflexivity.
      rewrite length_last_n. lia.
  - intros s B.
    assert (Hstore : store_after (save_data B) s
                     = replicate 499 btc_record ++ [eth_record]).
    { rewrite save_data_store. subst s B. rewrite store_set_store.
      rewrite !length_app, !length_replicate.
      change (1000 <? 600 + (600 + length [eth_record]))%nat with true.
      cbv iota. apply last_500_of_600_and_601. }
    split; [exact Hstore|]. split.
    + rewrite Hstore. subst B. unfold last_n.
      rewrite length_app, length_replicate.
      change (length [eth_record]) with 1%nat.
      replace (600 + 1 - 500)%nat with 101%nat by lia.
      rewrite drop_app_le by (rewrite length_replicate; lia).
      rewrite drop_replicate. reflexivity.
    + rewrite Hstore. subst B. rewrite !length_app, !length_replicate.
      simpl length. lia.
Qed.

(** C3, amended: when the store holds N records and the batch M records
    with N + M <= 1000, appending leaves the old contents followed by the
    batch, N + M records, nothing dropped. *)
Theorem save_data_no_truncation (B : list pydict) (s : state) :
  (length (crypto_data_store s) + length B ≤ 1000)%nat →
  store_after (save_data B) s = crypto_data_store s ++ B
  ∧ length (store_after (save_data B) s)
    = (length (crypto_data_store s) + length B)%nat.
Proof.
  intros Hle. rewrite save_data_store, length_app.
  destruct (Nat.ltb_spec 1000 (length (crypto_data_store s) + length B)); [lia|].
  split; [reflexivity | apply length_app].
Qed.

Lemma save_data_no_truncation_witness :
  store_after (save_data [eth_record]) (set_store [btc_record] init_state)
    = [btc_record; eth_record]
  ∧ length (store_after (save_data [eth_record]) (set_store [btc_record] init_state))
    = 2%nat.
Proof.
  apply (save_data_no_truncation [eth_record] (set_store [btc_record] init_state)).
  simpl. lia.
Defined.

(** C3 as stated fails: a store of 500 records (N <= 500) extended by a
    batch of 501 records (here the 500 stored records followed by one new
    record, as the price route passes them) ends with 500 records, not
    1001. *)
Lemma save_data_truncates_small_store :
  let s := set_store (replicate 500 btc_record) init_state in
  let B := replicate 500 btc_record ++ [eth_record] in
  (length (crypto_data_store s) ≤ 500)%nat
  ∧ length (store_after (save_data B) s) = 500%nat
  ∧ length (store_after (save_data B) s)
    ≠ (length (crypto_data_store s) + length B)%nat.
Proof.
  intros s B.
  assert (HB : length B = 501%nat).
  { subst B. rewrite length_app, length_replicate. reflexivity. }
  assert (Hlen : length (store_after (save_data B) s) = 500%nat).
  { rewrite save_data_store. subst s. rewrite store_set_store.
    rewrite length_app, length_replicate, HB.
    change (1000 <? 500 + 501)%nat with true. cbv iota.
    rewrite length_last_n, length_app, length_replicate, HB. reflexivity. }
  rewrite Hlen, HB. subst s. rewrite store_set_store, length_replicate.
  split; [lia | split; [reflexivity | lia]].
Qed.

Lemma run_op_length_le (o : store_op) (s : state) :
  (length (crypto_data_store s) ≤ 1000)%nat →
  (length (crypto_data_store (run_op o s)) ≤ 1000)%nat.
Proof.
  intros Hs. destruct o as [B| |].
  - apply save_data_length_le.
  - exact Hs.
  - simpl. lia.
Qed.

(** C4: each of append, load and clear takes a store of at most 1000
    records to a store of at most 1000 records, so every state reachable
    from the empty store by these operations has at most 1000 records. *)
Theorem store_length_at_most_1000 :
  (∀ (o : store_op) (s : state),
     (length (crypto_data_store s) ≤ 1000)%nat →
     (length (crypto_data_store (run_op o s)) ≤ 1000)%nat)
  ∧ (∀ s : state, reachable s → (length (crypto_data_store s) ≤ 1000)%nat).
Proof.
  split; [exact run_op_length_le|].
  intros s Hreach. induction Hreach as [|o s _ IH].
  - simpl. lia.
  - apply run_op_length_le, IH.
Qed.

Lemma store_length_at_most_1000_witness :
  (length (crypto_data_store
             (run_op OpLoad (run_op (OpSave [btc_record; eth_record]) init_state)))
   ≤ 1000)%nat.
Proof.
  apply (proj2 store_length_at_most_1000).
  apply reach_step, reach_step, reach_init.
Defined.

(** ** Theorems about the history routes *)

Lemma save_data_run (B : list pydict) (s : state) :
  save_data B s = (Return (), set_store (store_after (save_data B) s) s).
Proof.
  unfold store_after, save_data, bind, get_store, put_store.
  destruct (1000 <? _)%nat; reflexivity.
Qed.

(** What a successful price request does to the store: the handler hands
    [save_data] the loaded copy extended by the fetched records, and
    [save_data] appends all of that to the store. *)
Lemma get_crypto_prices_run (symbols : option string)
    (coingecko : Z → outcome (list pydict)) (clock : nat → string)
    (R : list pydict) (s : state) :
  scrape_crypto_prices symbols 10 coingecko clock = Return R →
  get_crypto_prices symbols coingecko clock s =
    (Return {| data := R; count := length R |},
     set_store (store_after (save_data (crypto_data_store s ++ R)) s) s).
Proof.
  intros HR. unfold get_crypto_prices, try_except, bind, lift, load_data, get_store.
  rewrite HR. simpl. rewrite save_data_run. reflexivity.
Qed.

(** C1 at a concrete request: the store holds one record, the client
    sends the right key and is within its rate limit, and the fetch yields
    one new record.  The request succeeds, and afterwards the store holds
    the old record twice, followed by the new one; it is not the old store
    followed by the fetched records. *)
Theorem get_crypto_prices_stores_history_twice :
  let s := set_store [btc_record] init_state in
  let coingecko := λ _ : Z, Return [eth_coin] in
  let route :=
    GET_crypto_prices sample_request (Some "kingvon") 0 None coingecko
      sample_clock in
  scrape_crypto_prices None 10 coingecko sample_clock = Return [eth_record]
  ∧ get_crypto_prices None coingecko sample_clock s =
      (Return {| data := [eth_record]; count := 1 |},
       set_store [btc_record; btc_record; eth_record] s)
  ∧ (route s).1 = Return {| data := [eth_record]; count := 1 |}
  ∧ store_after route s = [btc_record; btc_record; eth_record]
  ∧ store_after route s ≠ [btc_record] ++ [eth_record].
Proof.
  intros s coingecko route.
  assert (HR : scrape_crypto_prices None 10 coingecko sample_clock
               = Return [eth_record]) by (vm_compute; reflexivity).
  assert (Hstore : store_after route s = [btc_record; btc_record; eth_record])
    by (vm_compute; reflexivity).
  split; [exact HR|]. split; [|split; [|split]].
  - rewrite (get_crypto_prices_run _ _ _ _ _ HR). reflexivity.
  - vm_compute. reflexivity.
  - exact Hstore.
  - rewrite Hstore. intros Heq. apply (f_equal length) in Heq. discriminate Heq.
Qed.

(** C10, amended: for a positive limit L the response carries the last
    min(L, N) records of the store, for L = 0 the whole store;
    [total_records] is the length of the returned list, and the handler
    returns normally and leaves the state as it was. *)
Theorem get_stored_data_nonnegative_limit (limit : Z) (s : state) :
  0 ≤ limit →
  let N := length (crypto_data_store s) in
  let slice :=
    if decide (limit = 0) then crypto_data_store s
    else last_n (Z.to_nat limit) (crypto_data_store s) in
  get_stored_data limit s =
    (Return {| stored_data := slice; history_total_records := length slice |}, s)
  ∧ (limit ≠ 0 → Z.of_nat (length slice) = Z.min limit (Z.of_nat N)).
Proof.
  intros Hlimit N slice. subst slice N.
  unfold get_stored_data, try_except, bind, load_data, get_store, ret. simpl.
  destruct (decide (limit = 0)) as [->|Hne].
  - split; [reflexivity | congruence].
  - rewrite (decide_True (P := limit ≠ 0)) by assumption.
    replace (- limit) with (- Z.of_nat (Z.to_nat limit)) by lia.
    rewrite slice_from_neg_length by lia.
    split; [reflexivity|]. intros _. rewrite length_last_n. lia.
Qed.

Lemma get_stored_data_nonnegative_limit_witness :
  let s := set_store [btc_record; eth_record; btc_record] init_state in
  get_stored_data 2 s =
    (Return {| stored_data := [eth_record; btc_record];
               history_total_records := 2 |}, s)
  ∧ Z.of_nat 2 = Z.min 2 (Z.of_nat 3).
Proof.
  intros s.
  destruct (get_stored_data_nonnegative_limit 2 s) as [Hrun Hlen]; [lia|].
  split; [exact Hrun | apply Hlen; lia].
Defined.

(** What the slice [data[-limit:]] is for a negative limit: the store
    without its first [-limit] records. *)
Lemma get_stored_data_negative_limit (limit : Z) (s : state) :
  limit < 0 →
  let slice := drop (Z.to_nat (- limit)) (crypto_data_store s) in
  get_stored_data limit s =
    (Return {| stored_data := slice; history_total_records := length slice |}, s).
Proof.
  intros Hlimit slice. subst slice.
  unfold get_stored_data, try_except, bind, load_data, get_store, ret. simpl.
  rewrite (decide_True (P := limit ≠ 0)) by lia.
  unfold slice_from, slice_bound.
  destruct (Z.ltb_spec (- limit) 0) as [|_]; [lia|].
  destruct (Z.le_ge_cases (- limit) (Z.of_nat (length (crypto_data_store s)))).
  - rewrite Z.min_l by assumption. reflexivity.
  - rewrite Z.min_r, Nat2Z.id by assumption.
    rewrite !drop_ge by lia. reflexivity.
Qed.

(** C10 as stated fails for a negative limit: with L = -1 and a store of
    N = 2 records the response carries one record, which is neither the
    last min(L, N) records nor of length min(L, N). *)
Lemma get_stored_data_negative_limit_not_last :
  let s := set_store [btc_record; eth_record] init_state in
  (-1) ≠ 0
  ∧ get_stored_data (-1) s =
      (Return {| stored_data := [eth_record]; history_total_records := 1 |}, s)
  ∧ [eth_record] ≠ last_n (Z.to_nat (Z.min (-1) 2)) (crypto_data_store s)
  ∧ Z.of_nat (length [eth_record]) ≠ Z.min (-1) 2.
Proof.
  intros s. split; [lia|]. split.
  - apply (get_stored_data_negative_limit (-1) s). lia.
  - split; [|simpl; lia].
    intros Heq. apply (f_equal length) in Heq. discriminate Heq.
Qed.

(** ** Theorems about the rate limiter and the key check *)

Lemma times_of_insert (rt : gmap string (list Z)) (c : string) (l : list Z) :
  times_of (<[c := l]> rt) c = l.
Proof. unfold times_of. rewrite lookup_insert_eq. reflexivity. Qed.

(** One call of the limiter, in closed form. *)
Lemma rate_limit_check_run (request : Request) (now : Z) (s : state) :
  let c := client_host request in
  let kept := recent now (times_of (request_times s) c) in
  rate_limit_check request now s =
    if decide (60 ≤ length kept)%nat
    then (Raise (HTTPException 429 "Rate limit exceeded"),
          set_request_times (<[c := kept]> (request_times s)) s)
    else (Return true,
          set_request_times (<[c := kept ++ [now]]> (request_times s)) s).
Proof.
  intros c kept.
  assert (Hstep : ∀ rt : gmap string (list Z),
    times_of rt c = times_of (request_times s) c →
    <[c := recent now (times_of rt c)]> rt = <[c := kept]> (request_times s) →
    (let* rt := get_request_times in
     put_request_times (<[c := recent now (times_of rt c)]> rt) ;;
     let* rt := get_request_times in
     if (CONFIG.MAX_REQUESTS_PER_MINUTE <=? length (times_of rt c))%nat
     then raise (HTTPException 429 "Rate limit exceeded")
     else
       let* rt := get_request_times in
       put_request_times (<[c := times_of rt c ++ [now]]> rt) ;;
       ret true) (set_request_times rt s) =
    if decide (60 ≤ length kept)%nat
    then (Raise (HTTPException 429 "Rate limit exceeded"),
          set_request_times (<[c := kept]> (request_times s)) s)
    else (Return true,
          set_request_times (<[c := kept ++ [now]]> (request_times s)) s)).
  { intros rt Hrt Hins.
    unfold bind, get_request_times, put_request_times, raise, ret.
    cbn [request_times set_request_times crypto_data_store].
    rewrite Hins, times_of_insert. unfold CONFIG.MAX_REQUESTS_PER_MINUTE.
    destruct (Nat.leb_spec 60 (length kept)); case_decide; try lia.
    - reflexivity.
    - cbn [request_times set_request_times crypto_data_store].
      rewrite times_of_insert, insert_insert_eq. reflexivity. }
  unfold rate_limit_check. fold c.
  unfold bind at 1. unfold get_request_times at 1. cbv beta iota.
  unfold bind at 1.
  destruct (request_times s !! c) as [l|] eqn:Hc.
  - unfold ret at 1. cbv beta iota.
    replace s with (set_request_times (request_times s) s) at 1
      by (destruct s; reflexivity).
    apply Hstep; reflexivity.
  - unfold put_request_times at 1. cbv beta iota.
    apply Hstep.
    + unfold times_of. rewrite lookup_insert_eq, Hc. reflexivity.
    + rewrite times_of_insert, insert_insert_eq. subst kept.
      unfold times_of. rewrite Hc. reflexivity.
Qed.

Lemma rate_limit_check_returned (request : Request) (now : Z) (s : state) :
  returned (rate_limit_check request now s) =
    bool_decide (length (recent now (times_of (request_times s) (client_host request))) < 60)%nat.
Proof.
  rewrite rate_limit_check_run. case_decide; unfold returned; simpl.
  - rewrite bool_decide_eq_false_2 by lia. reflexivity.
  - rewrite bool_decide_eq_true_2 by lia. reflexivity.
Qed.

Lemma rate_limit_check_times (request : Request) (now : Z) (s : state) :
  let kept := recent now (times_of (request_times s) (client_host request)) in
  times_of (request_times (rate_limit_check request now s).2) (client_host request) =
    if decide (60 ≤ length kept)%nat then kept else kept ++ [now].
Proof.
  intros kept. rewrite rate_limit_check_run. fold kept.
  case_decide; simpl; apply times_of_insert.
Qed.

(** C6: [verify_api_key] runs the limiter first.  When the limiter
    rejects, the check fails with that 429 whatever key was sent, and
    nothing is recorded.  When the limiter admits, exactly one timestamp
    (the current time) has been recorded for the client, whether or not the
    key then matches; a key other than the configured one (or no key) fails
    with 401, the configured key returns [True].  On a protected route the
    handler body runs only after the check has returned. *)
Theorem verify_api_key_rate_limit_first :
  ∀ (request : Request) (x_api_key : option string) (now : Z) (s : state),
    let c := client_host request in
    let kept := recent now (times_of (request_times s) c) in
    let limited := rate_limit_check request now s in
    (if decide (60 ≤ length kept)%nat
     then limited.1 = Raise (HTTPException 429 "Rate limit exceeded")
          ∧ verify_api_key request x_api_key now s = (Raise (HTTPException 429 "Rate limit exceeded"), limited.2)
          ∧ times_of (request_times limited.2) c = kept
     else limited.1 = Return true
          ∧ verify_api_key request x_api_key now s =
              (if decide (x_api_key = Some CONFIG.API_KEY) then Return true
               else Raise (HTTPException 401 "Invalid API Key"),
               limited.2)
          ∧ times_of (request_times limited.2) c = kept ++ [now])
    ∧ (∀ (A : Type) (handler : M A),
         Depends_verify_api_key request x_api_key now handler s =
           match verify_api_key request x_api_key now s with
           | (Return _, s') => handler s'
           | (Raise e, s') => (Raise e, s')
           end).
Proof.
  intros request x_api_key now s c kept limited. split; [|reflexivity].
  assert (Hrun : limited =
            if decide (60 ≤ length kept)%nat
            then (Raise (HTTPException 429 "Rate limit exceeded"),
                  set_request_times (<[c := kept]> (request_times s)) s)
            else (Return true,
                  set_request_times (<[c := kept ++ [now]]> (request_times s)) s))
    by apply rate_limit_check_run.
  assert (Htimes : times_of (request_times limited.2) c =
            if decide (60 ≤ length kept)%nat then kept else kept ++ [now])
    by apply rate_limit_check_times.
  unfold verify_api_key, bind. fold limited. clearbody limited kept.
  destruct (decide (60 ≤ length kept)%nat); subst limited.
  - split; [reflexivity|]. split; [reflexivity | exact Htimes].
  - split; [reflexivity|]. split; [|exact Htimes].
    cbv beta iota. unfold raise, ret.
    destruct (decide (x_api_key = Some CONFIG.API_KEY)) as [->|Hne].
    + rewrite decide_False by (intros H; apply H; reflexivity). reflexivity.
    + rewrite decide_True by assumption. reflexivity.
Qed.

(** *** Sequences of checks inside one window *)

Lemma recent_all (now : Z) (l : list Z) :
  Forall (λ t, now - t < one_minute) l → recent now l = l.
Proof.
  unfold recent. induction 1 as [|t l Ht _ IH]; [reflexivity|].
  rewrite filter_cons_True by assumption. f_equal. exact IH.
Qed.

(** The retained timestamps that are not before [start]. *)
Lemma recent_keeps_window (start now : Z) (l : list Z) :
  now < start + one_minute →
  filter (λ t, start ≤ t) (recent now l) = filter (λ t, start ≤ t) l.
Proof.
  intros Hnow. unfold recent. induction l as [|t l IH]; [reflexivity|].
  rewrite !filter_cons.
  destruct (decide (now - t < one_minute)); destruct (decide (start ≤ t));
    rewrite ?filter_cons_True, ?filter_cons_False by assumption;
    try (f_equal; exact IH); try exact IH.
  lia.
Qed.

Lemma run_checks_cons (request : Request) (t : Z) (times : list Z) (s : state) :
  (run_checks request (t :: times) s).1 =
    returned (rate_limit_check request t s)
    :: (run_checks request times (rate_limit_check request t s).2).1.
Proof.
  simpl. destruct (run_checks request times _) as [admits s']. reflexivity.
Qed.

(** Inside one window the limiter admits at most 60 checks, less the
    timestamps of the window that the client already holds. *)
Lemma run_checks_admitted_bound (request : Request) (start : Z) (times : list Z) :
  in_window start times →
  ∀ s : state,
    let held := length (filter (λ t, start ≤ t)
                          (times_of (request_times s) (client_host request))) in
    (admitted_count (run_checks request times s).1 + held ≤ Nat.max 60 held)%nat.
Proof.
  unfold in_window. induction 1 as [|now times Hnow _ IH]; intros s; cbv zeta.
  - simpl. lia.
  - rewrite run_checks_cons. unfold admitted_count. rewrite filter_cons.
    specialize (IH (rate_limit_check request now s).2). cbv zeta in IH.
    rewrite rate_limit_check_times in IH. cbv zeta in IH.
    rewrite rate_limit_check_returned.
    set (l := times_of (request_times s) (client_host request)) in *.
    pose proof (recent_keeps_window start now l (proj2 Hnow)) as Hkeep.
    pose proof (length_filter (λ t, start ≤ t) (recent now l)) as Hlen.
    rewrite Hkeep in Hlen.
    set (held := length (filter (λ t, start ≤ t) l)) in *.
    unfold admitted_count in IH.
    destruct (decide (60 ≤ length (recent now l))%nat) as [Hfull|Hroom].
    + rewrite Hkeep in IH. fold held in IH.
      rewrite bool_decide_eq_false_2 by lia.
      rewrite decide_False by discriminate. exact IH.
    + rewrite filter_app, Hkeep, length_app in IH. fold held in IH.
      rewrite filter_cons_True, filter_nil in IH by lia. simpl length in IH.
      rewrite bool_decide_eq_true_2 by lia.
      rewrite decide_True by reflexivity. simpl length. lia.
Qed.

Lemma fmap_seq_all_false (k n : nat) :
  (60 ≤ k)%nat →
  (λ i, bool_decide (i < 60)%nat) <$> seq k n = (λ i, bool_decide (i < 60)%nat) <$> seq (S k) n.
Proof.
  revert k. induction n as [|n IH]; intros k Hk; [reflexivity|].
  simpl. rewrite !bool_decide_eq_false_2 by lia. f_equal. apply IH. lia.
Qed.

(** When every timestamp the client holds lies in the window, no check of
    the window evicts anything: the list grows by one per admitted check
    until it has 60 entries. *)
Lemma run_checks_in_window (request : Request) (start : Z) (times : list Z) :
  in_window start times →
  ∀ s : state,
    Forall (λ t, start ≤ t) (times_of (request_times s) (client_host request)) →
    (run_checks request times s).1 =
      (λ i, bool_decide (i < 60)%nat)
        <$> seq (length (times_of (request_times s) (client_host request)))
                (length times).
Proof.
  unfold in_window. induction 1 as [|now times Hnow _ IH]; intros s Hheld.
  - reflexivity.
  - rewrite run_checks_cons, rate_limit_check_returned.
    specialize (IH (rate_limit_check request now s).2).
    rewrite rate_limit_check_times in IH. cbv zeta in IH.
    set (l := times_of (request_times s) (client_host request)) in *.
    assert (Hall : recent now l = l).
    { apply recent_all. eapply Forall_impl; [exact Hheld|].
      intros t Ht. simpl in Ht. lia. }
    rewrite Hall in *. simpl length. simpl seq. rewrite fmap_cons. f_equal.
    destruct (decide (60 ≤ length l)%nat) as [Hfull|Hroom].
    + rewrite IH by assumption. apply fmap_seq_all_false. exact Hfull.
    + rewrite IH.
      * rewrite length_app. simpl length. f_equal. f_equal. lia.
      * apply Forall_app. split; [assumption|].
        apply Forall_cons. split; [lia | apply Forall_nil_2].
Qed.

(** C5, amended: a check keeps exactly the client's timestamps that are
    less than 60 seconds before now (so all older ones are evicted); with 60
    or more kept it fails with 429, records nothing and leaves the client's
    list equal to the kept list; otherwise it appends now and returns.
    Consequently, among the checks a client makes inside one 60-second
    window at most 60 are admitted, and when the client holds no timestamps
    at the start of the window the first 60 checks are admitted and the 61st
    and every later one is rejected. *)
Theorem rate_limit_check_sliding_window :
  (∀ (request : Request) (now : Z) (s : state),
     let c := client_host request in
     let kept := recent now (times_of (request_times s) c) in
     (∀ t, t ∈ kept ↔ t ∈ times_of (request_times s) c ∧ now - t < one_minute)
     ∧ rate_limit_check request now s =
         if decide (60 ≤ length kept)%nat
         then (Raise (HTTPException 429 "Rate limit exceeded"),
               set_request_times (<[c := kept]> (request_times s)) s)
         else (Return true,
               set_request_times (<[c := kept ++ [now]]> (request_times s)) s))
  ∧ (∀ (request : Request) (start : Z) (times : list Z) (s : state),
       in_window start times →
       (admitted_count (run_checks request times s).1 ≤ 60)%nat)
  ∧ (∀ (request : Request) (start : Z) (times : list Z) (s : state),
       in_window start times →
       times_of (request_times s) (client_host request) = [] →
       (run_checks request times s).1 =
         (λ i, bool_decide (i < 60)%nat) <$> seq 0 (length times)
       ∧ ((60 < length times)%nat →
          (run_checks request times s).1 !! 60%nat = Some false)).
Proof.
  split; [|split].
  - intros request now s c kept. split; [|apply rate_limit_check_run].
    intros t. unfold kept, recent. rewrite list_elem_of_filter. tauto.
  - intros request start times s Hwin.
    pose proof (run_checks_admitted_bound request start times Hwin s) as Hb.
    cbv zeta in Hb. lia.
  - intros request start times s Hwin Hfresh.
    pose proof (run_checks_in_window request start times Hwin s) as Hrun.
    rewrite Hfresh in Hrun. specialize (Hrun (Forall_nil_2 _)).
    split; [exact Hrun|].
    intros Hlen. rewrite Hrun, list_lookup_fmap, lookup_seq_lt by lia.
    reflexivity.
Qed.

Lemma rate_limit_check_sliding_window_witness :
  (run_checks sample_request (replicate 61 1000000) init_state).1 !! 60%nat
  = Some false.
Proof.
  assert (Hwin : in_window 0 (replicate 61 1000000)).
  { apply Forall_forall. intros t Ht.
    apply elem_of_replicate in Ht as [-> _]. unfold one_minute. lia. }
  assert (Hfresh : times_of (request_times init_state) (client_host sample_request) = [])
    by reflexivity.
  destruct (proj2 (proj2 rate_limit_check_sliding_window)
              sample_request 0 (replicate 61 1000000) init_state Hwin Hfresh)
    as [_ H61].
  apply H61. rewrite length_replicate. lia.
Defined.

(** C5 as stated fails.  The client has made 60 checks at time 0, all
    admitted.  Then 61 checks follow inside one 60-second window: 60 at
    59.999999 s, all rejected, and one at 60.000000 s.  That 61st check of
    the window is admitted: the timestamps of time 0 are then a full minute
    old and are evicted, and the rejected checks recorded nothing. *)
Lemma rate_limit_61st_check_admitted :
  let s := (run_checks sample_request (replicate 60 0) init_state).2 in
  let times := replicate 60 59999999 ++ [60000000] in
  in_window 59999999 times
  ∧ length times = 61%nat
  ∧ (run_checks sample_request times s).1 !! 60%nat = Some true.
Proof.
  intros s times. split; [|split].
  - apply Forall_app. split.
    + apply Forall_forall. intros t Ht.
      apply elem_of_replicate in Ht as [-> _]. unfold one_minute. lia.
    + apply Forall_cons. split; [unfold one_minute; lia | apply Forall_nil_2].
  - reflexivity.
  - vm_compute. reflexivity.
Qed.

(** ** Theorems about the statistics route *)

Lemma count_symbol_lookup (m : gmap pyval nat) (r : pydict) (v : pyval) :
  count_symbol m r !! v =
    if decide (v = symbol_of r)
    then Some (default 0%nat (m !! v) + 1)%nat
    else m !! v.
Proof.
  unfold count_symbol. case_decide as Hv.
  - subst v. destruct (m !! symbol_of r); rewrite lookup_insert_eq; reflexivity.
  - destruct (m !! symbol_of r); rewrite lookup_insert_ne by congruence; reflexivity.
Qed.

(** The counting loop, started from any dictionary of counts. *)
Lemma foldl_count_symbol_lookup (data : list pydict) :
  ∀ (m : gmap pyval nat) (v : pyval),
    foldl count_symbol m data !! v =
      match m !! v with
      | Some k => Some (k + occurrences v (symbol_of <$> data))%nat
      | None =>
          if decide (v ∈ symbol_of <$> data)
          then Some (occurrences v (symbol_of <$> data))
          else None
      end.
Proof.
  unfold occurrences.
  induction data as [|r data IH]; intros m v.
  - simpl. destruct (m !! v) as [k|].
    + f_equal. lia.
    + reflexivity.
  - simpl foldl. rewrite IH, count_symbol_lookup, fmap_cons, filter_cons.
    destruct (decide (v = symbol_of r)) as [->|Hne].
    + rewrite (decide_True (P := symbol_of r = symbol_of r)) by reflexivity.
      rewrite (decide_True (P := symbol_of r ∈ _ :: _)) by apply list_elem_of_here.
      simpl length. destruct (m !! symbol_of r) as [k|]; simpl; f_equal; lia.
    + rewrite (decide_False (P := symbol_of r = v)) by congruence.
      destruct (m !! v) as [k|]; [reflexivity|].
      destruct (decide (v ∈ symbol_of <$> data)) as [Hin|Hnin].
      * rewrite decide_True by (apply list_elem_of_further, Hin). reflexivity.
      * rewrite decide_False; [reflexivity|].
        intros [Heq|Hin]%elem_of_cons; [congruence | exact (Hnin Hin)].
Qed.

Lemma foldl_count_symbol_dom (data : list pydict) :
  ∀ m : gmap pyval nat,
    dom (foldl count_symbol m data) = dom m ∪ list_to_set (symbol_of <$> data).
Proof.
  induction data as [|r data IH]; intros m.
  - simpl. rewrite (right_id_L ∅ (∪)). reflexivity.
  - simpl foldl. rewrite IH, fmap_cons, list_to_set_cons.
    assert (Hdom : dom (count_symbol m r) = {[symbol_of r]} ∪ dom m).
    { unfold count_symbol. destruct (m !! symbol_of r); apply dom_insert_L. }
    rewrite Hdom, (comm_L (∪) {[symbol_of r]} (dom m)), (assoc_L (∪)).
    reflexivity.
Qed.

Lemma foldl_count_symbol_size (data : list pydict) :
  size (foldl count_symbol ∅ data) = length (remove_dups (symbol_of <$> data)).
Proof.
  rewrite <- (size_dom (D := gset pyval)), foldl_count_symbol_dom, dom_empty_L.
  rewrite (left_id_L ∅ (∪)).
  rewrite <- (size_list_to_set (C := gset pyval) (remove_dups (symbol_of <$> data)))
    by apply NoDup_remove_dups.
  f_equal. apply set_eq. intros v.
  rewrite !elem_of_list_to_set, elem_of_remove_dups. reflexivity.
Qed.

(** C7: on an empty store the statistics route answers with the no-data
    message, never with statistics.  On a non-empty store it answers with
    statistics whose [total_records] is the number of records, whose
    [unique_symbols] is the number of distinct symbols, whose
    [symbol_counts] maps exactly the symbols that occur, each to its number
    of occurrences, and whose [last_updated] is the [timestamp] field of the
    last record; a record without a [symbol] field counts under "UNKNOWN".
    The records BTC, ETH, BTC give 3 records, 2 symbols and the counts
    BTC: 2, ETH: 1. *)
Theorem get_data_statistics_counts :
  (∀ s : state,
     crypto_data_store s = [] →
     get_data_statistics s = (Return (StatsMessage "No data available"), s))
  ∧ (∀ s : state,
       crypto_data_store s ≠ [] →
       let symbols := symbol_of <$> crypto_data_store s in
       ∃ stats : statistics,
         get_data_statistics s = (Return (Statistics stats), s)
         ∧ total_records stats = length (crypto_data_store s)
         ∧ unique_symbols stats = length (remove_dups symbols)
         ∧ (∀ v : pyval,
              symbol_counts stats !! v =
                if decide (v ∈ symbols) then Some (occurrences v symbols) else None)
         ∧ (∀ record : pydict,
              last (crypto_data_store s) = Some record →
              last_updated stats = dict_get record "timestamp" PNone))
  ∧ (∀ record : pydict,
       record !! "symbol" = None → symbol_of record = PStr "UNKNOWN")
  ∧ (let s := set_store [ {["symbol" := PStr "BTC"]};
                          {["symbol" := PStr "ETH"]};
                          {["symbol" := PStr "BTC"]} ] init_state in
     get_data_statistics s =
       (Return (Statistics {| total_records := 3;
                              unique_symbols := 2;
                              symbol_counts := {[ PStr "BTC" := 2%nat;
                                                  PStr "ETH" := 1%nat ]};
                              last_updated := PNone |}), s)).
Proof.
  split; [|split; [|split]].
  - intros s Hempty.
    unfold get_data_statistics, try_except, bind, load_data, get_store.
    rewrite Hempty. reflexivity.
  - intros s Hne symbols.
    unfold get_data_statistics, try_except, bind, load_data, get_store.
    destruct (crypto_data_store s) as [|r data] eqn:Hstore; [congruence|].
    eexists. split; [reflexivity|]. cbn [total_records unique_symbols symbol_counts last_updated].
    split; [reflexivity|]. split; [apply foldl_count_symbol_size|]. split.
    + intros v. rewrite foldl_count_symbol_lookup, lookup_empty. reflexivity.
    + intros record Hlast. rewrite Hlast. reflexivity.
  - intros record Hnone. unfold symbol_of, dict_get. rewrite Hnone. reflexivity.
  - vm_compute. reflexivity.
Qed.

Lemma get_data_statistics_counts_witness :
  let s := set_store [btc_record; eth_record] init_state in
  ∃ stats : statistics,
    get_data_statistics s = (Return (Statistics stats), s)
    ∧ total_records stats = 2%nat
    ∧ unique_symbols stats = length (remove_dups [PStr "BTC"; PStr "ETH"])
    ∧ (∀ v : pyval,
         symbol_counts stats !! v =
           if decide (v ∈ [PStr "BTC"; PStr "ETH"])
           then Some (occurrences v [PStr "BTC"; PStr "ETH"]) else None)
    ∧ (∀ record : pydict,
         last [btc_record; eth_record] = Some record →
         last_updated stats = dict_get record "timestamp" PNone).
Proof.
  intros s.
  apply (proj1 (proj2 get_data_statistics_counts) s).
  discriminate.
Defined.

(** ** Theorems about the price fetcher *)

Lemma is_space_upper_char (c : ascii) : is_space (upper_char c) = is_space c.
Proof. destruct c as [[] [] [] [] [] [] [] []]; reflexivity. Qed.

Lemma lstrip_upper (s : string) : lstrip (upper s) = upper (lstrip s).
Proof.
  induction s as [|c s IH]; [reflexivity|].
  simpl. rewrite is_space_upper_char.
  destruct (is_space c); [exact IH | reflexivity].
Qed.

Lemma rstrip_upper (s : string) : rstrip (upper s) = upper (rstrip s).
Proof.
  induction s as [|c s IH]; [reflexivity|].
  simpl. rewrite IH.
  destruct (rstrip s) as [|c' r]; simpl; [|reflexivity].
  rewrite is_space_upper_char. destruct (is_space c); reflexivity.
Qed.

(** Upper-casing and stripping commute. *)
Lemma strip_upper (s : string) : strip (upper s) = upper (strip s).
Proof. unfold strip. rewrite rstrip_upper. apply lstrip_upper. Qed.

Lemma split_comma_cons (s : string) : ∃ w ws, split_comma s = w :: ws.
Proof.
  induction s as [|c s (w & ws & IH)]; simpl; [eauto|].
  destruct (Ascii.eqb c ","); [eauto|]. rewrite IH. eauto.
Qed.

Lemma symbol_list_of_nonempty (symbols : string) :
  symbols ≠ EmptyString →
  symbol_list_of (Some symbols) = Some (split_comma symbols).
Proof. destruct symbols; [congruence | reflexivity]. Qed.

Lemma crypto_info_of_record (coin : pydict) (now : string) :
  well_formed_coin coin →
  ∃ record, crypto_info_of coin now = Return record ∧ record_for coin record.
Proof.
  intros ((t & Hsym) & (name & Hname) & (price & Hprice)).
  unfold crypto_info_of, getitem. rewrite Hsym, Hname, Hprice. simpl obind.
  eexists. split; [reflexivity|].
  unfold record_for, ticker. rewrite Hsym, Hname, Hprice.
  repeat split; simplify_map_eq; reflexivity.
Qed.

Lemma scrape_loop_cons (symbol_list : option (list string))
    (clock : nat → string) (coin : pydict) (data result : list pydict) :
  scrape_loop symbol_list clock (coin :: data) result =
    obind (filtered_out symbol_list coin) (λ skip : bool,
      if skip then scrape_loop symbol_list clock data result
      else obind (crypto_info_of coin (clock (length result))) (λ crypto_info,
             scrape_loop symbol_list clock data (result ++ [crypto_info]))).
Proof. reflexivity. Qed.

(** *** The fetcher for arbitrary [str.upper] and [str.strip] *)

Lemma filtered_out_with_string (str_upper str_strip : string → string)
    (symbols : string) (coin : pydict) (t : string) :
  coin !! "symbol" = Some (PStr t) →
  filtered_out_with str_upper str_strip (Some (split_comma symbols)) coin
    = Return (negb (bool_decide (matches_filter str_upper str_strip symbols coin))).
Proof.
  intros Hsym.
  assert (Hgen : ∀ sl, sl ≠ [] →
    filtered_out_with str_upper str_strip (Some sl) coin
    = Return (negb (bool_decide
                      (str_upper t ∈ (λ s, str_strip (str_upper s)) <$> sl)))).
  { intros [|w ws] Hsl; [congruence|].
    unfold filtered_out_with, getitem. rewrite Hsym. reflexivity. }
  rewrite Hgen
    by (destruct (split_comma_cons symbols) as (w & ws & ->); discriminate).
  do 2 f_equal. apply bool_decide_ext.
  unfold matches_filter, ticker. rewrite Hsym.
  rewrite list_elem_of_fmap, Exists_exists.
  split; intros (entry & H1 & H2); exists entry; auto.
Qed.

Lemma filtered_out_with_no_string (str_upper str_strip : string → string)
    (symbols : string) (coin : pydict) :
  (∀ t, coin !! "symbol" ≠ Some (PStr t)) →
  ∃ e, filtered_out_with str_upper str_strip (Some (split_comma symbols)) coin
       = Raise e.
Proof.
  intros Hsym. destruct (split_comma_cons symbols) as (w & ws & ->).
  unfold filtered_out_with, getitem.
  destruct (coin !! "symbol") as [[|t|n]|]; try (eexists; reflexivity).
  exfalso. apply (Hsym t). reflexivity.
Qed.

Lemma crypto_info_of_with_record (str_upper : string → string)
    (coin : pydict) (now t : string) :
  coin !! "symbol" = Some (PStr t) →
  is_Some (coin !! "name") →
  is_Some (coin !! "current_price") →
  ∃ record,
    crypto_info_of_with str_upper coin now = Return record
    ∧ price_record_of str_upper coin record.
Proof.
  intros Hsym (name & Hname) (price & Hprice).
  unfold crypto_info_of_with, getitem. rewrite Hsym, Hname, Hprice. cbn [obind py_upper_with].
  eexists. split; [reflexivity|].
  unfold price_record_of, ticker. rewrite Hsym, Hname, Hprice.
  repeat split; simplify_map_eq; reflexivity.
Qed.

Lemma crypto_info_of_with_missing (str_upper : string → string)
    (coin : pydict) (now t : string) :
  coin !! "symbol" = Some (PStr t) →
  ¬ (is_Some (coin !! "name") ∧ is_Some (coin !! "current_price")) →
  ∃ e, crypto_info_of_with str_upper coin now = Raise e.
Proof.
  intros Hsym Hmissing. unfold crypto_info_of_with, getitem.
  rewrite Hsym. cbn [obind py_upper_with].
  destruct (coin !! "name") as [name|]; [|eexists; reflexivity].
  destruct (coin !! "current_price") as [price|]; [|eexists; reflexivity].
  exfalso. apply Hmissing. split; eexists; reflexivity.
Qed.

Lemma scrape_loop_with_cons (str_upper str_strip : string → string)
    (symbol_list : option (list string)) (clock : nat → string)
    (coin : pydict) (data result : list pydict) :
  scrape_loop_with str_upper str_strip symbol_list clock (coin :: data) result =
    obind (filtered_out_with str_upper str_strip symbol_list coin) (λ skip : bool,
      if skip
      then scrape_loop_with str_upper str_strip symbol_list clock data result
      else obind (crypto_info_of_with str_upper coin (clock (length result)))
             (λ crypto_info,
                scrape_loop_with str_upper str_strip symbol_list clock data
                  (result ++ [crypto_info]))).
Proof. reflexivity. Qed.

(** The loop under a filter: when every coin carries what the loop
    subscripts, it appends the records of the coins that pass the filter, in
    upstream order; otherwise it raises. *)
Lemma scrape_loop_with_filter (str_upper str_strip : string → string)
    (symbols : string) (clock : nat → string) (data : list pydict) :
  ∀ result : list pydict,
    (Forall (fetchable_coin str_upper str_strip symbols) data →
     ∃ records,
       scrape_loop_with str_upper str_strip (Some (split_comma symbols)) clock
         data result = Return (result ++ records)
       ∧ Forall2 (price_record_of str_upper)
           (filter (matches_filter str_upper str_strip symbols) data) records)
    ∧ (¬ Forall (fetchable_coin str_upper str_strip symbols) data →
       ∃ e, scrape_loop_with str_upper str_strip (Some (split_comma symbols))
              clock data result = Raise e).
Proof.
  induction data as [|coin data IH]; intros result.
  - split.
    + intros _. exists []. rewrite app_nil_r. split; [reflexivity | constructor].
    + intros Hnot. exfalso. apply Hnot. constructor.
  - rewrite scrape_loop_with_cons, filter_cons.
    destruct (coin !! "symbol") as [[|t|n]|] eqn:Hsym;
      try (destruct (filtered_out_with_no_string str_upper str_strip symbols coin)
             as (e & ->); [intros t'; rewrite Hsym; discriminate|];
           split; [intros Hall; apply Forall_cons in Hall as [[[t' Ht'] _] _];
                   rewrite Hsym in Ht'; discriminate
                  | intros _; exists e; reflexivity]).
    rewrite (filtered_out_with_string str_upper str_strip symbols coin t Hsym).
    cbn [obind].
    destruct (decide (matches_filter str_upper str_strip symbols coin))
      as [Hsel|Hnot].
    + rewrite bool_decide_eq_true_2 by assumption. cbn [negb].
      destruct (decide (is_Some (coin !! "name")
                        ∧ is_Some (coin !! "current_price"))) as [[Hn Hp]|Hmiss].
      * destruct (crypto_info_of_with_record str_upper coin
                    (clock (length result)) t Hsym Hn Hp)
          as (record & -> & Hrecord).
        cbn [obind]. destruct (IH (result ++ [record])) as [IHok IHbad]. split.
        -- intros Hall. apply Forall_cons in Hall as [_ Hall].
           destruct (IHok Hall) as (records & -> & Hrecords).
           exists (record :: records). rewrite <- app_assoc.
           split; [reflexivity | constructor; assumption].
        -- intros Hnall. apply IHbad. intros Hall. apply Hnall.
           apply Forall_cons. split; [|exact Hall].
           split; [exists t; exact Hsym | intros _; split; assumption].
      * destruct (crypto_info_of_with_missing str_upper coin
                    (clock (length result)) t Hsym Hmiss) as (e & ->).
        cbn [obind]. split.
        -- intros Hall. apply Forall_cons in Hall as [[_ Hfields] _].
           exfalso. apply Hmiss, Hfields, Hsel.
        -- intros _. exists e. reflexivity.
    + rewrite bool_decide_eq_false_2 by assumption. cbn [negb].
      destruct (IH result) as [IHok IHbad]. split.
      * intros Hall. apply Forall_cons in Hall as [_ Hall]. apply IHok, Hall.
      * intros Hnall. apply IHbad. intros Hall. apply Hnall.
        apply Forall_cons. split; [|exact Hall].
        split; [exists t; exact Hsym | intros Hsel; exfalso; exact (Hnot Hsel)].
Qed.

(** With [upper] and [strip] for the built-ins the parametric fetcher is
    [scrape_crypto_prices]. *)
Lemma scrape_crypto_prices_with_ascii (symbols : option string) (limit : Z)
    (coingecko : Z → outcome (list pydict)) (clock : nat → string) :
  scrape_crypto_prices_with upper strip symbols limit coingecko clock
  = scrape_crypto_prices symbols limit coingecko clock.
Proof.
  unfold scrape_crypto_prices_with, scrape_crypto_prices.
  destruct (coingecko limit) as [data|e]; cbn [obind]; [|reflexivity].
  generalize (@nil pydict) as result.
  induction data as [|coin data IH]; intros result; [reflexivity|].
  rewrite scrape_loop_with_cons, scrape_loop_cons.
  change (filtered_out_with upper strip (symbol_list_of symbols) coin)
    with (filtered_out (symbol_list_of symbols) coin).
  destruct (filtered_out (symbol_list_of symbols) coin) as [[|]|e];
    cbn [obind]; [apply IH| |reflexivity].
  change (crypto_info_of_with upper coin (clock (length result)))
    with (crypto_info_of coin (clock (length result))).
  destruct (crypto_info_of coin (clock (length result))); cbn [obind];
    [apply IH | reflexivity].
Qed.

(** C8, amended: take any non-empty filter string and any upstream coin
    list.  When every coin has a string [symbol] and every coin that passes
    the filter has a [name] and a [current_price], the fetcher returns one
    record per coin that passes the filter, in the order of the upstream
    list, and nothing else, each record carrying the upper-cased ticker;
    for every other upstream list the fetch raises and returns no records.
    A coin passes the filter when its upper-cased ticker is a filter entry
    upper-cased and stripped; as upper-casing and stripping commute, that
    is: the ticker equals, ignoring case, an entry stripped of surrounding
    whitespace.  All this holds whatever [str.upper] and [str.strip] are;
    with the ASCII forms the fetcher is [scrape_crypto_prices], and the
    filters "btc, eth" and " Eth ,BTC" against BTC, ETH, SOL return exactly
    the BTC and the ETH record. *)
Theorem scrape_crypto_prices_filter :
  (∀ (str_upper str_strip : string → string) (symbols : string) (limit : Z)
     (coingecko : Z → outcome (list pydict)) (clock : nat → string)
     (data : list pydict),
     symbols ≠ EmptyString →
     coingecko limit = Return data →
     (Forall (fetchable_coin str_upper str_strip symbols) data →
      ∃ records,
        scrape_crypto_prices_with str_upper str_strip (Some symbols) limit
          coingecko clock = Return records
        ∧ Forall2 (price_record_of str_upper)
            (filter (matches_filter str_upper str_strip symbols) data) records)
     ∧ (¬ Forall (fetchable_coin str_upper str_strip symbols) data →
        ∃ e, scrape_crypto_prices_with str_upper str_strip (Some symbols) limit
               coingecko clock = Raise e))
  ∧ (∀ (str_upper str_strip : string → string),
       (∀ s, str_strip (str_upper s) = str_upper (str_strip s)) →
       ∀ (symbols : string) (coin : pydict),
         matches_filter str_upper str_strip symbols coin ↔
         ∃ entry, entry ∈ split_comma symbols
                  ∧ str_upper (ticker coin) = str_upper (str_strip entry))
  ∧ ((∀ (symbols : option string) (limit : Z)
        (coingecko : Z → outcome (list pydict)) (clock : nat → string),
        scrape_crypto_prices_with upper strip symbols limit coingecko clock
        = scrape_crypto_prices symbols limit coingecko clock)
     ∧ (∀ s, strip (upper s) = upper (strip s)))
  ∧ (let coingecko := λ _ : Z, Return [btc_coin; eth_coin; sol_coin] in
     let expected :=
       [record_of "BTC" "Bitcoin" 67000 (sample_clock 0);
        record_of "ETH" "Ethereum" 3500 (sample_clock 1)] in
     scrape_crypto_prices (Some "btc, eth") 10 coingecko sample_clock
       = Return expected
     ∧ scrape_crypto_prices (Some " Eth ,BTC") 10 coingecko sample_clock
       = Return expected).
Proof.
  split; [|split; [|split]].
  - intros str_upper str_strip symbols limit coingecko clock data Hne Hup.
    unfold scrape_crypto_prices_with. rewrite Hup. cbn [obind].
    rewrite symbol_list_of_nonempty by assumption.
    exact (scrape_loop_with_filter str_upper str_strip symbols clock data []).
  - intros str_upper str_strip Hcomm symbols coin. unfold matches_filter.
    rewrite Exists_exists.
    split; intros (entry & Hin & Heq); exists entry; split; try assumption.
    + rewrite <- Hcomm. exact Heq.
    + rewrite Hcomm. exact Heq.
  - split; [exact scrape_crypto_prices_with_ascii | exact strip_upper].
  - split; vm_compute; reflexivity.
Qed.

Lemma scrape_crypto_prices_filter_witness :
  ∃ records,
    scrape_crypto_prices_with upper strip (Some "btc, eth") 10
      (λ _, Return [btc_coin; eth_coin; sol_coin]) sample_clock = Return records
    ∧ Forall2 (price_record_of upper)
        (filter (matches_filter upper strip "btc, eth")
                [btc_coin; eth_coin; sol_coin]) records.
Proof.
  apply (proj1 scrape_crypto_prices_filter upper strip "btc, eth" 10
           (λ _, Return [btc_coin; eth_coin; sol_coin]) sample_clock
           [btc_coin; eth_coin; sol_coin]).
  - discriminate.
  - reflexivity.
  - repeat apply Forall_cons_2; try apply Forall_nil_2;
      (split; [eexists; reflexivity | intros _; split; eexists; reflexivity]).
Defined.

(** C8 as stated fails on upstream lists the fetcher cannot read.  With
    filter "btc" and the upstream list BTC followed by a coin without a
    [symbol], BTC passes the filter, yet the fetch raises
    [KeyError('symbol')] and returns no record at all.  With filter "xrp"
    and the upstream list BTC followed by an XRP coin without a [name], the
    fetch raises [KeyError('name')]. *)
Lemma scrape_crypto_prices_filter_malformed_coin :
  let coingecko := λ _ : Z, Return [btc_coin; symbolless_coin] in
  matches_filter upper strip "btc" btc_coin
  ∧ scrape_crypto_prices (Some "btc") 10 coingecko sample_clock
    = Raise (KeyError "symbol")
  ∧ (∀ records,
       scrape_crypto_prices (Some "btc") 10 coingecko sample_clock
       ≠ Return records)
  ∧ matches_filter upper strip "xrp" nameless_coin
  ∧ scrape_crypto_prices (Some "xrp") 10
      (λ _, Return [btc_coin; nameless_coin]) sample_clock
    = Raise (KeyError "name").
Proof.
  intros coingecko.
  assert (Hraise : scrape_crypto_prices (Some "btc") 10 coingecko sample_clock
                   = Raise (KeyError "symbol")) by (vm_compute; reflexivity).
  split; [apply Exists_cons_hd; vm_compute; reflexivity|].
  split; [exact Hraise|].
  split; [intros records; rewrite Hraise; discriminate|].
  split; [apply Exists_cons_hd; vm_compute; reflexivity|].
  vm_compute. reflexivity.
Qed.

(** ** Theorems about the news fetcher *)

Lemma slice_to_ge {A} (limit : Z) (l : list A) :
  Z.of_nat (length l) ≤ limit → slice_to limit l = l.
Proof.
  intros Hle. unfold slice_to, slice_bound.
  destruct (Z.ltb_spec limit 0); [lia|].
  apply take_ge. lia.
Qed.

Lemma filter_all {A} (P : A → Prop) `{∀ x, Decision (P x)} (l : list A) :
  Forall P l → filter P l = l.
Proof.
  induction 1 as [|x l Hx _ IH]; [reflexivity|].
  rewrite filter_cons_True by assumption. f_equal. exact IH.
Qed.

Lemma parse_item_complete (item : rss_item) :
  has_required_fields item →
  ∃ news, parse_item item = Return news ∧ news_for item news.
Proof.
  intros ((t & Ht) & (l & Hl) & (d & Hd)).
  unfold parse_item, find_text_strip. rewrite Ht, Hl, Hd. cbn [obind].
  eexists. split; [reflexivity|].
  unfold news_for. rewrite Ht, Hl, Hd. cbn [title url published_at source summary].
  repeat split. destruct (item_description item); reflexivity.
Qed.

Lemma parse_item_incomplete (item : rss_item) :
  ¬ has_required_fields item → ∃ e, parse_item item = Raise e.
Proof.
  intros Hnot. unfold parse_item, find_text_strip.
  destruct (item_title item) as [t|] eqn:Ht; [|eexists; reflexivity].
  destruct (item_link item) as [l|] eqn:Hl; [|eexists; reflexivity].
  destruct (item_pubDate item) as [d|] eqn:Hd; [|eexists; reflexivity].
  exfalso. apply Hnot. unfold has_required_fields.
  rewrite Ht, Hl, Hd. eauto.
Qed.

Lemma news_loop_cons (item : rss_item) (items : list rss_item)
    (news_data : list news_item) :
  news_loop (item :: items) news_data =
    match parse_item item with
    | Return news => news_loop items (news_data ++ [news])
    | Raise _ => news_loop items news_data
    end.
Proof. reflexivity. Qed.

(** The loop appends the news items of the feed items that have the
    required tags, in feed order, and passes over the others. *)
Lemma news_loop_parsed (items : list rss_item) :
  ∀ news_data : list news_item,
    ∃ parsed,
      news_loop items news_data = news_data ++ parsed
      ∧ Forall2 news_for (filter has_required_fields items) parsed.
Proof.
  induction items as [|item items IH]; intros news_data.
  - exists []. rewrite app_nil_r. split; [reflexivity | constructor].
  - rewrite news_loop_cons, filter_cons.
    destruct (decide (has_required_fields item)) as [Hok|Hbad].
    + destruct (parse_item_complete item Hok) as (news & -> & Hnews).
      destruct (IH (news_data ++ [news])) as (parsed & -> & Hparsed).
      exists (news :: parsed). rewrite <- app_assoc.
      split; [reflexivity | constructor; assumption].
    + destruct (parse_item_incomplete item Hbad) as (e & ->).
      apply IH.
Qed.

(** C9: once the feed has been fetched, the news fetcher returns normally
    whatever the items look like.  Of the items within the limit, those
    lacking a title, link or publication date are passed over; every other
    one yields its news item, in feed order; an item without a description
    is not passed over and gets the summary "No description".  With five
    items of which exactly one lacks its title (and a limit of at least
    five) the result has exactly four news items, those of the other four in
    their order. *)
Theorem scrape_crypto_news_skips_incomplete_items :
  (∀ (limit : Z) (items : list rss_item),
     ∃ news_data,
       scrape_crypto_news limit (Return items) = Return news_data
       ∧ Forall2 news_for
           (filter has_required_fields (slice_to limit items)) news_data)
  ∧ (∀ (item : rss_item) (news : news_item),
       news_for item news →
       item_description item = None →
       summary news = "No description")
  ∧ (∀ (limit : Z) (before after : list rss_item) (bad : rss_item),
       item_title bad = None →
       Forall has_required_fields (before ++ after) →
       length (before ++ bad :: after) = 5%nat →
       5 ≤ limit →
       ∃ news_data,
         scrape_crypto_news limit (Return (before ++ bad :: after))
           = Return news_data
         ∧ length news_data = 4%nat
         ∧ Forall2 news_for (before ++ after) news_data).
Proof.
  assert (Hgen : ∀ (limit : Z) (items : list rss_item),
     ∃ news_data,
       scrape_crypto_news limit (Return items) = Return news_data
       ∧ Forall2 news_for
           (filter has_required_fields (slice_to limit items)) news_data).
  { intros limit items. unfold scrape_crypto_news. cbn [obind].
    destruct (news_loop_parsed (slice_to limit items) []) as (parsed & Hrun & Hp).
    exists parsed. split; [rewrite Hrun; reflexivity | exact Hp]. }
  split; [exact Hgen|]. split.
  - intros item news (_ & _ & _ & _ & Hsummary) Hnone.
    rewrite Hnone in Hsummary. exact Hsummary.
  - intros limit before after bad Hbad Hothers Hlen Hlimit.
    destruct (Hgen limit (before ++ bad :: after)) as (news_data & Hrun & Hnews).
    exists news_data. split; [exact Hrun|].
    rewrite slice_to_ge in Hnews by lia.
    apply Forall_app in Hothers as [Hbefore Hafter].
    rewrite filter_app, filter_cons_False, !filter_all in Hnews by
      (try assumption; unfold has_required_fields; rewrite Hbad;
       intros [[? ?] _]; discriminate).
    split; [|exact Hnews].
    apply Forall2_length in Hnews. rewrite <- Hnews.
    rewrite length_app in *. simpl in Hlen. lia.
Qed.

Lemma scrape_crypto_news_skips_incomplete_items_witness :
  let before := [sample_item "1"; sample_item "2"] in
  let after := [sample_item "4"; sample_item "5"] in
  ∃ news_data,
    scrape_crypto_news 5 (Return (before ++ untitled_item :: after))
      = Return news_data
    ∧ length news_data = 4%nat
    ∧ Forall2 news_for (before ++ after) news_data.
Proof.
  intros before after.
  apply (proj2 (proj2 scrape_crypto_news_skips_incomplete_items)
           5 before after untitled_item).
  - reflexivity.
  - repeat apply Forall_cons_2; try apply Forall_nil_2;
      (split; [eexists; reflexivity | split; eexists; reflexivity]).
  - reflexivity.
  - lia.
Defined.

(** ** Further properties of the rate limiter and the key check *)

Lemma rate_limit_check_store (request : Request) (now : Z) (s : state) :
  crypto_data_store (rate_limit_check request now s).2 = crypto_data_store s.
Proof. rewrite rate_limit_check_run. case_decide; reflexivity. Qed.

Lemma rate_limit_check_lookup_ne (request : Request) (now : Z) (s : state)
    (c : string) :
  c ≠ client_host request →
  request_times (rate_limit_check request now s).2 !! c = request_times s !! c.
Proof.
  intros Hne. rewrite rate_limit_check_run.
  case_decide; cbn [snd request_times set_request_times];
    apply lookup_insert_ne; congruence.
Qed.

(** X1: a check for one client leaves the timestamp list of every other
    client as it was, and never touches the history store. *)
Theorem rate_limit_check_isolation (request : Request) (now : Z) (s : state)
    (other : string) :
  other ≠ client_host request →
  request_times (rate_limit_check request now s).2 !! other
    = request_times s !! other
  ∧ crypto_data_store (rate_limit_check request now s).2 = crypto_data_store s.
Proof.
  intros Hne. split.
  - apply rate_limit_check_lookup_ne, Hne.
  - apply rate_limit_check_store.
Qed.

Lemma rate_limit_check_isolation_witness :
  let s := (run_checks {| client_host := "198.51.100.2" |} [1; 2; 3] init_state).2 in
  request_times (rate_limit_check sample_request 5 s).2 !! "198.51.100.2"
    = request_times s !! "198.51.100.2"
  ∧ crypto_data_store (rate_limit_check sample_request 5 s).2 = crypto_data_store s.
Proof.
  intros s. apply (rate_limit_check_isolation sample_request 5 s "198.51.100.2").
  discriminate.
Defined.

Lemma recent_none (now : Z) (l : list Z) :
  Forall (λ x, x + one_minute ≤ now) l → recent now l = [].
Proof.
  unfold recent. induction 1 as [|x l Hx _ IH]; [reflexivity|].
  rewrite filter_cons_False by lia. exact IH.
Qed.

Lemma run_checks_state_cons (request : Request) (t : Z) (times : list Z)
    (s : state) :
  (run_checks request (t :: times) s).2
  = (run_checks request times (rate_limit_check request t s).2).2.
Proof.
  simpl. destruct (run_checks request times _) as [admits s']. reflexivity.
Qed.

(** X2: when every check of a client comes at least 60 seconds after every
    timestamp the client holds (so: after the previous check), every check
    is admitted, however many there are, and after the last check the client
    holds that check's timestamp alone. *)
Theorem spaced_checks_always_admitted (request : Request) (times : list Z) :
  ∀ s : state,
    spaced_after (times_of (request_times s) (client_host request)) times →
    (run_checks request times s).1 = replicate (length times) true
    ∧ (∀ t, last times = Some t →
         times_of (request_times (run_checks request times s).2)
                  (client_host request) = [t]).
Proof.
  induction times as [|t times IH]; intros s Hspaced.
  - split; [reflexivity | discriminate].
  - destruct Hspaced as [Hheld Hrest].
    pose proof (rate_limit_check_times request t s) as Htimes.
    cbv zeta in Htimes. rewrite (recent_none t _ Hheld) in Htimes.
    rewrite decide_False in Htimes by (simpl; lia).
    rewrite app_nil_l in Htimes.
    rewrite run_checks_cons, run_checks_state_cons, rate_limit_check_returned.
    rewrite (recent_none t _ Hheld).
    rewrite bool_decide_eq_true_2 by (simpl; lia).
    rewrite <- Htimes in Hrest.
    destruct (IH _ Hrest) as [IHadmits IHlast].
    split.
    + rewrite IHadmits. reflexivity.
    + intros t' Hlast. destruct times as [|t'' times].
      * injection Hlast as <-. exact Htimes.
      * apply IHlast. exact Hlast.
Qed.

Lemma spaced_checks_always_admitted_witness :
  (run_checks sample_request [0; 60000000; 120000000; 180000000] init_state).1
    = replicate 4 true
  ∧ (∀ t, last [0; 60000000; 120000000; 180000000] = Some t →
       times_of (request_times
                   (run_checks sample_request
                      [0; 60000000; 120000000; 180000000] init_state).2)
                (client_host sample_request) = [t]).
Proof.
  apply (spaced_checks_always_admitted sample_request
           [0; 60000000; 120000000; 180000000] init_state).
  change (times_of (request_times init_state) (client_host sample_request))
    with (@nil Z).
  simpl. unfold one_minute.
  repeat match goal with
         | |- _ ∧ _ => split
         | |- Forall _ [] => apply Forall_nil_2
         | |- Forall _ (_ :: _) => apply Forall_cons_2
         | |- True => exact I
         end; lia.
Defined.

Lemma run_op_request_times (o : store_op) (s : state) :
  request_times (run_op o s) = request_times s.
Proof.
  destruct o as [B| |]; [|reflexivity|reflexivity].
  simpl. rewrite save_data_run. reflexivity.
Qed.

Lemma length_recent (now : Z) (l : list Z) :
  (length (recent now l) ≤ length l)%nat.
Proof. apply length_filter. Qed.

Lemma served_times_length (s : state) :
  served s →
  ∀ c : string, (length (times_of (request_times s) c) ≤ 60)%nat.
Proof.
  induction 1 as [|request now s _ IH|o s _ IH]; intros c.
  - unfold times_of. simpl. rewrite lookup_empty. simpl. lia.
  - destruct (decide (c = client_host request)) as [->|Hne].
    + rewrite rate_limit_check_times. cbv zeta.
      pose proof (length_recent now (times_of (request_times s) (client_host request))).
      specialize (IH (client_host request)).
      case_decide; [lia|]. rewrite length_app. simpl. lia.
    + unfold times_of. rewrite rate_limit_check_lookup_ne by assumption.
      apply IH.
  - rewrite run_op_request_times. apply IH.
Qed.

(** X3: in every state of the running service each client holds at most 60
    timestamps, whatever clients were checked at whatever times before. *)
Theorem served_at_most_60_timestamps (s : state) :
  served s →
  ∀ client_ip : string,
    (length (times_of (request_times s) client_ip) ≤ 60)%nat.
Proof. exact (served_times_length s). Qed.

Lemma served_at_most_60_timestamps_witness :
  (length (times_of
             (request_times
                (rate_limit_check sample_request 7
                   (run_op (OpSave [btc_record])
                      (rate_limit_check sample_request 3 init_state).2)).2)
             "203.0.113.7") ≤ 60)%nat.
Proof.
  apply served_at_most_60_timestamps.
  apply served_check, served_op, served_check, served_init.
Defined.

(** X4: the table never forgets a client: after a check its client has an
    entry, and every client that had an entry before still has one. *)
Theorem rate_limit_check_keeps_clients (request : Request) (now : Z) (s : state) :
  client_host request ∈ dom (request_times (rate_limit_check request now s).2)
  ∧ dom (request_times s) ⊆ dom (request_times (rate_limit_check request now s).2).
Proof.
  rewrite rate_limit_check_run.
  case_decide; cbn [snd request_times set_request_times];
    rewrite dom_insert_L; split;
    solve [ apply elem_of_union_l, elem_of_singleton; reflexivity
          | apply union_subseteq_r ].
Qed.

(** [verify_api_key] in closed form. *)
Lemma verify_api_key_run (request : Request) (x_api_key : option string)
    (now : Z) (s : state) :
  verify_api_key request x_api_key now s =
    (if decide (60 ≤ length (recent now (times_of (request_times s)
                                           (client_host request))))%nat
     then Raise (HTTPException 429 "Rate limit exceeded")
     else if decide (x_api_key = Some CONFIG.API_KEY) then Return true
          else Raise (HTTPException 401 "Invalid API Key"),
     (rate_limit_check request now s).2).
Proof.
  unfold verify_api_key, bind. rewrite rate_limit_check_run.
  case_decide; [reflexivity|]. cbv beta iota. cbn [snd].
  destruct (decide (x_api_key = Some CONFIG.API_KEY)) as [->|Hne].
  - rewrite decide_False by (intros H'; apply H'; reflexivity). reflexivity.
  - rewrite decide_True by assumption. reflexivity.
Qed.

Lemma run_verifies_cons (request : Request) (call : option string * Z)
    (calls : list (option string * Z)) (s : state) :
  (run_verifies request (call :: calls) s).1 =
    (verify_api_key request call.1 call.2 s).1
    :: (run_verifies request calls (rate_limit_check request call.2 s).2).1.
Proof.
  destruct call as [key t]. simpl.
  rewrite (verify_api_key_run request key t s). cbn [snd fst].
  destruct (run_verifies request calls _) as [outcomes s']. reflexivity.
Qed.

(** The outcome of the request at position [i] when the client held [n]
    timestamps of the window before the first request. *)
Lemma run_verifies_in_window (request : Request) (start : Z)
    (calls : list (option string * Z)) :
  in_window start (calls.*2) →
  ∀ s : state,
    Forall (λ t, start ≤ t) (times_of (request_times s) (client_host request)) →
    (run_verifies request calls s).1 =
      imap (λ i call,
              if decide (length (times_of (request_times s) (client_host request)) + i < 60)%nat
              then if decide (call.1 = Some CONFIG.API_KEY) then Return true
                   else Raise (HTTPException 401 "Invalid API Key")
              else Raise (HTTPException 429 "Rate limit exceeded")) calls.
Proof.
  unfold in_window. induction calls as [|call calls IH]; intros Hwin s Hheld.
  - reflexivity.
  - rewrite fmap_cons in Hwin. apply Forall_cons in Hwin as [Hnow Hwin].
    rewrite run_verifies_cons, imap_cons, verify_api_key_run. cbn [fst].
    specialize (IH Hwin (rate_limit_check request call.2 s).2).
    rewrite rate_limit_check_times in IH. cbv zeta in IH.
    set (l := times_of (request_times s) (client_host request)) in *.
    assert (Hall : recent call.2 l = l).
    { apply recent_all. eapply Forall_impl; [exact Hheld|].
      intros t Ht. simpl in Ht. lia. }
    rewrite Hall in *.
    destruct (decide (60 ≤ length l)%nat) as [Hfull|Hroom].
    + rewrite (decide_False (P := (length l + 0 < 60)%nat)) by lia. f_equal.
      rewrite IH by assumption. apply imap_ext. intros i x _. simpl.
      rewrite !(decide_False (P := (length l + _ < 60)%nat)) by lia.
      reflexivity.
    + rewrite (decide_True (P := (length l + 0 < 60)%nat)) by lia. f_equal.
      rewrite IH.
      * apply imap_ext. intros i x _. simpl. rewrite length_app. simpl.
        replace (length l + 1 + i)%nat with (length l + S i)%nat by lia.
        reflexivity.
      * apply Forall_app. split; [assumption|].
        apply Forall_cons. split; [lia | apply Forall_nil_2].
Qed.

(** X5: requests with a wrong or missing key use up the budget too.  When a
    client that holds no timestamps sends requests inside one 60-second
    window, the first 60 are answered by the key check alone (success for
    the configured key, 401 otherwise) and every later one gets 429, the
    configured key included. *)
Theorem failed_key_checks_consume_budget (request : Request) (start : Z)
    (calls : list (option string * Z)) (s : state) :
  in_window start (calls.*2) →
  times_of (request_times s) (client_host request) = [] →
  (run_verifies request calls s).1 =
    imap (λ i call,
            if decide (i < 60)%nat
            then if decide (call.1 = Some CONFIG.API_KEY) then Return true
                 else Raise (HTTPException 401 "Invalid API Key")
            else Raise (HTTPException 429 "Rate limit exceeded")) calls.
Proof.
  intros Hwin Hfresh.
  rewrite (run_verifies_in_window request start calls Hwin s)
    by (rewrite Hfresh; apply Forall_nil_2).
  rewrite Hfresh. reflexivity.
Qed.

Lemma failed_key_checks_consume_budget_witness :
  let calls := replicate 60 (Some "guess", 1000000) ++ [(Some "kingvon", 2000000)] in
  (run_verifies sample_request calls init_state).1 =
    imap (λ i call,
            if decide (i < 60)%nat
            then if decide (call.1 = Some CONFIG.API_KEY) then Return true
                 else Raise (HTTPException 401 "Invalid API Key")
            else Raise (HTTPException 429 "Rate limit exceeded")) calls.
Proof.
  intros calls.
  apply (failed_key_checks_consume_budget sample_request 0 calls init_state).
  - subst calls. rewrite fmap_app, fmap_replicate. apply Forall_app. split.
    + apply Forall_replicate. unfold one_minute. simpl. lia.
    + apply Forall_cons. split; [unfold one_minute; simpl; lia | apply Forall_nil_2].
  - reflexivity.
Defined.

(** X6: on a protected route the handler body does not run unless the
    limiter admits the request and the key is the configured one: otherwise
    the request fails with 401 or 429 and the history store is as before,
    whatever the handler would have done. *)
Theorem rejected_request_leaves_store {A : Type} (handler : M A)
    (request : Request) (x_api_key : option string) (now : Z) (s : state) :
  x_api_key ≠ Some CONFIG.API_KEY
  ∨ (60 ≤ length (recent now (times_of (request_times s) (client_host request))))%nat →
  let r := Depends_verify_api_key request x_api_key now handler s in
  (r.1 = Raise (HTTPException 401 "Invalid API Key")
   ∨ r.1 = Raise (HTTPException 429 "Rate limit exceeded"))
  ∧ crypto_data_store r.2 = crypto_data_store s.
Proof.
  intros Hrej r. subst r.
  unfold Depends_verify_api_key, bind. rewrite verify_api_key_run.
  destruct (decide (60 ≤ length (recent now (times_of (request_times s)
                                               (client_host request))))%nat).
  - cbn [fst snd]. split; [right; reflexivity | apply rate_limit_check_store].
  - destruct Hrej as [Hkey|Hfull]; [|lia].
    rewrite decide_False by assumption. cbn [fst snd].
    split; [left; reflexivity | apply rate_limit_check_store].
Qed.

Lemma rejected_request_leaves_store_witness :
  let s := set_store [btc_record; eth_record] init_state in
  let r := Depends_verify_api_key sample_request (Some "KingVon") 5
             clear_stored_data s in
  (r.1 = Raise (HTTPException 401 "Invalid API Key")
   ∨ r.1 = Raise (HTTPException 429 "Rate limit exceeded"))
  ∧ crypto_data_store r.2 = crypto_data_store s.
Proof.
  intros s.
  apply (rejected_request_leaves_store clear_stored_data sample_request
           (Some "KingVon") 5 s).
  left. discriminate.
Defined.

(** ** Further properties of the store and its routes *)

Lemma suffix_last_n {A} (n : nat) (R L : list A) :
  R `suffix_of` L → (length R ≤ n)%nat → R `suffix_of` last_n n L.
Proof.
  intros [k ->] Hn. unfold last_n.
  rewrite drop_app_le by (rewrite length_app; lia).
  eexists. reflexivity.
Qed.

Lemma last_drop_lt {A} (k : nat) (l : list A) :
  (k < length l)%nat → last (drop k l) = last l.
Proof.
  intros Hk. rewrite !last_lookup, lookup_drop, length_drop.
  f_equal. lia.
Qed.

Lemma save_data_last (B : list pydict) (s : state) (r : pydict) :
  last B = Some r → last (store_after (save_data B) s) = Some r.
Proof.
  intros Hr. rewrite save_data_store.
  destruct (Nat.ltb_spec 1000 (length (crypto_data_store s ++ B))) as [Hgt|Hle].
  - unfold last_n. rewrite last_drop_lt by lia.
    rewrite last_app, Hr. reflexivity.
  - rewrite last_app, Hr. reflexivity.
Qed.

(** X7: whatever is appended, the store afterwards is a suffix of the old
    contents followed by the batch: records are only dropped from the
    front, never reordered or invented.  The newest record of the batch is
    always the newest record of the store, and a batch of at most 500
    records is kept whole. *)
Theorem save_data_keeps_newest (B : list pydict) (s : state) :
  store_after (save_data B) s `suffix_of` crypto_data_store s ++ B
  ∧ (∀ r, last B = Some r → last (store_after (save_data B) s) = Some r)
  ∧ ((length B ≤ 500)%nat → B `suffix_of` store_after (save_data B) s).
Proof.
  rewrite save_data_store.
  destruct (Nat.ltb_spec 1000 (length (crypto_data_store s ++ B))) as [Hgt|Hle].
  - split; [apply suffix_drop|]. split.
    + intros r Hr. unfold last_n. rewrite last_drop_lt by lia.
      rewrite last_app, Hr. reflexivity.
    + intros HB. apply suffix_last_n; [|assumption].
      exists (crypto_data_store s). reflexivity.
  - split; [exists []; reflexivity|]. split.
    + intros r Hr. rewrite last_app, Hr. reflexivity.
    + intros _. exists (crypto_data_store s). reflexivity.
Qed.

Lemma save_data_keeps_newest_witness :
  [btc_record; eth_record]
    `suffix_of` store_after (save_data [btc_record; eth_record])
                  (set_store [eth_record] init_state).
Proof.
  apply (save_data_keeps_newest [btc_record; eth_record]
           (set_store [eth_record] init_state)).
  simpl. lia.
Defined.

(** X8: the clear route returns its success message, empties the store and
    leaves the rate-limit table alone; right after it the statistics route
    answers with the no-data message and the history route, for any limit,
    with an empty list and a total of 0. *)
Theorem clear_then_read (s : state) (limit : Z) :
  let cleared := (clear_stored_data s).2 in
  (clear_stored_data s).1 = Return "All stored data cleared successfully"
  ∧ crypto_data_store cleared = []
  ∧ request_times cleared = request_times s
  ∧ (get_data_statistics cleared).1 = Return (StatsMessage "No data available")
  ∧ (get_stored_data limit cleared).1
    = Return {| stored_data := []; history_total_records := 0 |}.
Proof.
  repeat split.
  unfold get_stored_data, try_except, bind, load_data, get_store, ret.
  cbn [fst snd clear_stored_data crypto_data_store].
  change (crypto_data_store (clear_stored_data s).2) with (@nil pydict).
  case_decide; [|reflexivity].
  unfold slice_from. rewrite drop_nil. reflexivity.
Qed.

(** X9: when the price fetch raises, the price route answers 500 with the
    exception's text in the detail and leaves the state exactly as it
    was. *)
Theorem get_crypto_prices_failure (symbols : option string)
    (coingecko : Z → outcome (list pydict)) (clock : nat → string)
    (e : exn) (s : state) :
  scrape_crypto_prices symbols 10 coingecko clock = Raise e →
  get_crypto_prices symbols coingecko clock s =
    (Raise (HTTPException 500 ("Failed to fetch crypto data: " +:+ str_exn e)), s).
Proof.
  intros He. unfold get_crypto_prices, try_except, bind, lift.
  rewrite He. reflexivity.
Qed.

Lemma get_crypto_prices_failure_witness :
  let s := set_store [btc_record] init_state in
  get_crypto_prices None (λ _, Return [btc_coin; nameless_coin]) sample_clock s =
    (Raise (HTTPException 500 "Failed to fetch crypto data: 'name'"), s).
Proof.
  intros s.
  apply (get_crypto_prices_failure None (λ _, Return [btc_coin; nameless_coin])
           sample_clock (KeyError "name") s).
  vm_compute. reflexivity.
Defined.

Lemma get_stored_data_positive (limit : Z) (s : state) :
  0 < limit →
  get_stored_data limit s =
    (Return {| stored_data := last_n (Z.to_nat limit) (crypto_data_store s);
               history_total_records :=
                 length (last_n (Z.to_nat limit) (crypto_data_store s)) |}, s).
Proof.
  intros Hlimit.
  unfold get_stored_data, try_except, bind, load_data, get_store, ret.
  cbn [fst snd]. rewrite (decide_True (P := limit ≠ 0)) by lia.
  replace (- limit) with (- Z.of_nat (Z.to_nat limit)) by lia.
  rewrite slice_from_neg_length by lia. reflexivity.
Qed.

Lemma last_n_suffix {A} (R L : list A) :
  R `suffix_of` L → last_n (length R) L = R.
Proof.
  intros [k ->]. unfold last_n. rewrite length_app.
  apply drop_app_length'. lia.
Qed.

(** X10: after a successful price request that fetched at most 500 records,
    the fetched records are the newest records of the store, in order; a
    history request for as many records as were fetched returns exactly
    them. *)
Theorem fetched_records_are_newest (symbols : option string)
    (coingecko : Z → outcome (list pydict)) (clock : nat → string)
    (R : list pydict) (s : state) :
  scrape_crypto_prices symbols 10 coingecko clock = Return R →
  (0 < length R ≤ 500)%nat →
  let s' := (get_crypto_prices symbols coingecko clock s).2 in
  R `suffix_of` crypto_data_store s'
  ∧ get_stored_data (Z.of_nat (length R)) s' =
      (Return {| stored_data := R; history_total_records := length R |}, s').
Proof.
  intros HR Hlen s'.
  assert (Hsuffix : R `suffix_of` crypto_data_store s').
  { subst s'. rewrite (get_crypto_prices_run _ _ _ _ _ HR).
    cbn [snd]. rewrite store_set_store, save_data_store.
    destruct (1000 <? _)%nat.
    - apply suffix_last_n; [|lia].
      apply suffix_app_r, suffix_app_r. exists []. reflexivity.
    - apply suffix_app_r, suffix_app_r. exists []. reflexivity. }
  split; [exact Hsuffix|].
  rewrite get_stored_data_positive by lia.
  rewrite Nat2Z.id, (last_n_suffix R _ Hsuffix). reflexivity.
Qed.

Lemma fetched_records_are_newest_witness :
  let s := set_store [btc_record] init_state in
  let s' := (get_crypto_prices None (λ _, Return [eth_coin]) sample_clock s).2 in
  [eth_record] `suffix_of` crypto_data_store s'
  ∧ get_stored_data 1 s' =
      (Return {| stored_data := [eth_record]; history_total_records := 1 |}, s').
Proof.
  intros s.
  apply (fetched_records_are_newest None (λ _, Return [eth_coin]) sample_clock
           [eth_record] s).
  - vm_compute. reflexivity.
  - simpl. lia.
Defined.

(** ** Further properties of the price fetcher *)

Lemma filtered_out_no_filter (symbols : option string) (coin : pydict) :
  symbols = None ∨ symbols = Some EmptyString →
  filtered_out (symbol_list_of symbols) coin = Return false.
Proof. intros [-> | ->]; reflexivity. Qed.

(** X11: without a filter ([symbols] absent or the empty string) and with
    an upstream list of well-formed coins, the fetcher returns one record
    per coin, all of them, in upstream order. *)
Theorem scrape_crypto_prices_no_filter (symbols : option string) (limit : Z)
    (coingecko : Z → outcome (list pydict)) (clock : nat → string)
    (data : list pydict) :
  symbols = None ∨ symbols = Some EmptyString →
  coingecko limit = Return data →
  Forall well_formed_coin data →
  ∃ records,
    scrape_crypto_prices symbols limit coingecko clock = Return records
    ∧ Forall2 record_for data records.
Proof.
  intros Hnone Hup Hwf. unfold scrape_crypto_prices. rewrite Hup. cbn [obind].
  enough (Hloop : ∀ result, ∃ records,
            scrape_loop (symbol_list_of symbols) clock data result
              = Return (result ++ records)
            ∧ Forall2 record_for data records)
    by (destruct (Hloop []) as (records & Hrun & Hrec); eauto).
  clear Hup. induction Hwf as [|coin data Hcoin _ IH]; intros result.
  - exists []. rewrite app_nil_r. split; [reflexivity | constructor].
  - rewrite scrape_loop_cons, (filtered_out_no_filter symbols coin Hnone).
    cbn [obind].
    destruct (crypto_info_of_record coin (clock (length result)) Hcoin)
      as (record & -> & Hrecord).
    cbn [obind].
    destruct (IH (result ++ [record])) as (records & -> & Hrecords).
    exists (record :: records). rewrite <- app_assoc.
    split; [reflexivity | constructor; assumption].
Qed.

Lemma scrape_crypto_prices_no_filter_witness :
  ∃ records,
    scrape_crypto_prices (Some "") 10
      (λ _, Return [btc_coin; eth_coin; sol_coin]) sample_clock = Return records
    ∧ Forall2 record_for [btc_coin; eth_coin; sol_coin] records.
Proof.
  apply (scrape_crypto_prices_no_filter (Some "") 10
           (λ _, Return [btc_coin; eth_coin; sol_coin]) sample_clock
           [btc_coin; eth_coin; sol_coin]).
  - right. reflexivity.
  - reflexivity.
  - repeat apply Forall_cons_2; try apply Forall_nil_2;
      (split; [eexists; reflexivity | split; eexists; reflexivity]).
Defined.

Lemma filtered_out_returns (symbol_list : option (list string)) (coin : pydict)
    (t : string) :
  coin !! "symbol" = Some (PStr t) →
  ∃ skip, filtered_out symbol_list coin = Return skip.
Proof.
  intros Hsym. destruct symbol_list as [[|w ws]|]; try (eexists; reflexivity).
  unfold filtered_out, getitem. rewrite Hsym. eexists. reflexivity.
Qed.

Lemma scrape_loop_well_formed_prefix (symbol_list : option (list string))
    (clock : nat → string) (good rest : list pydict) :
  Forall well_formed_coin good →
  ∀ result, ∃ result',
    scrape_loop symbol_list clock (good ++ rest) result
    = scrape_loop symbol_list clock rest result'.
Proof.
  induction 1 as [|coin good Hcoin _ IH]; intros result.
  - exists result. reflexivity.
  - pose proof Hcoin as ((t & Hsym) & _).
    rewrite <- app_comm_cons, scrape_loop_cons.
    destruct (filtered_out_returns symbol_list coin t Hsym) as (skip & ->).
    cbn [obind]. destruct skip; [apply IH|].
    destruct (crypto_info_of_record coin (clock (length result)) Hcoin)
      as (record & -> & _).
    cbn [obind]. apply IH.
Qed.

(** X12: one upstream coin without a [symbol] fails the whole fetch with
    [KeyError('symbol')], with or without a filter, however many
    well-formed coins come before it; no partial result is returned. *)
Theorem scrape_crypto_prices_missing_symbol (symbols : option string) (limit : Z)
    (coingecko : Z → outcome (list pydict)) (clock : nat → string)
    (good rest : list pydict) (bad : pydict) :
  coingecko limit = Return (good ++ bad :: rest) →
  Forall well_formed_coin good →
  bad !! "symbol" = None →
  scrape_crypto_prices symbols limit coingecko clock = Raise (KeyError "symbol").
Proof.
  intros Hup Hgood Hbad. unfold scrape_crypto_prices. rewrite Hup. cbn [obind].
  destruct (scrape_loop_well_formed_prefix (symbol_list_of symbols) clock
              good (bad :: rest) Hgood []) as (result' & ->).
  rewrite scrape_loop_cons.
  destruct (symbol_list_of symbols) as [[|w ws]|];
    unfold filtered_out, crypto_info_of, getitem; rewrite ?Hbad; reflexivity.
Qed.

Lemma scrape_crypto_prices_missing_symbol_witness :
  scrape_crypto_prices (Some "btc") 10
    (λ _, Return ([btc_coin; eth_coin] ++ symbolless_coin :: [sol_coin]))
    sample_clock
  = Raise (KeyError "symbol").
Proof.
  apply (scrape_crypto_prices_missing_symbol (Some "btc") 10
           (λ _, Return ([btc_coin; eth_coin] ++ symbolless_coin :: [sol_coin]))
           sample_clock [btc_coin; eth_coin] [sol_coin] symbolless_coin).
  - reflexivity.
  - repeat apply Forall_cons_2; try apply Forall_nil_2;
      (split; [eexists; reflexivity | split; eexists; reflexivity]).
  - reflexivity.
Defined.

Lemma crypto_info_of_shape (coin : pydict) (now : string) (record : pydict) :
  crypto_info_of coin now = Return record →
  dom record = price_record_fields
  ∧ record !! "timestamp" = Some (PStr now)
  ∧ ∃ t, record !! "symbol" = Some (PStr (upper t)).
Proof.
  unfold crypto_info_of, getitem, py_upper.
  destruct (coin !! "symbol") as [[|t|]|]; try discriminate.
  destruct (coin !! "name") as [name|]; try discriminate.
  destruct (coin !! "current_price") as [price|]; try discriminate.
  cbn [obind]. intros [= <-]. split; [|split].
  - rewrite !dom_insert_L, dom_empty_L. reflexivity.
  - simplify_map_eq. reflexivity.
  - exists t. simplify_map_eq. reflexivity.
Qed.

Lemma scrape_loop_shape (symbol_list : option (list string))
    (clock : nat → string) (data : list pydict) :
  ∀ result records : list pydict,
    (∀ k record, result !! k = Some record →
       dom record = price_record_fields
       ∧ record !! "timestamp" = Some (PStr (clock k))
       ∧ ∃ t, record !! "symbol" = Some (PStr (upper t))) →
    scrape_loop symbol_list clock data result = Return records →
    ∀ k record, records !! k = Some record →
      dom record = price_record_fields
      ∧ record !! "timestamp" = Some (PStr (clock k))
      ∧ ∃ t, record !! "symbol" = Some (PStr (upper t)).
Proof.
  induction data as [|coin data IH]; intros result records Hresult Hrun.
  - injection Hrun as <-. exact Hresult.
  - rewrite scrape_loop_cons in Hrun.
    destruct (filtered_out symbol_list coin) as [[|]|e]; cbn [obind] in Hrun;
      [eapply IH; eassumption| |discriminate].
    destruct (crypto_info_of coin (clock (length result))) as [info|e] eqn:Hinfo;
      cbn [obind] in Hrun; [|discriminate].
    eapply IH; [|exact Hrun].
    intros k record Hk. apply lookup_app_Some in Hk as [Hk|[Hge Hk]].
    + apply Hresult, Hk.
    + apply list_lookup_singleton_Some in Hk as [Hk0 <-].
      replace k with (length result) by lia.
      apply (crypto_info_of_shape coin _ _ Hinfo).
Qed.

Lemma scrape_records_shape (symbols : option string) (limit : Z)
    (coingecko : Z → outcome (list pydict)) (clock : nat → string)
    (records : list pydict) :
  scrape_crypto_prices symbols limit coingecko clock = Return records →
  ∀ (k : nat) (record : pydict),
    records !! k = Some record →
    dom record = price_record_fields
    ∧ record !! "timestamp" = Some (PStr (clock k))
    ∧ ∃ t, record !! "symbol" = Some (PStr (upper t)).
Proof.
  unfold scrape_crypto_prices.
  destruct (coingecko limit) as [data|e]; cbn [obind]; [|discriminate].
  intros Hrun. eapply scrape_loop_shape; [|exact Hrun].
  intros k record Hk. rewrite lookup_nil in Hk. discriminate.
Qed.

(** X13: every record the fetcher returns has exactly the seven fields of a
    price record; its [symbol] is an upper-cased string, and its [timestamp]
    is the clock reading taken for its position in the result. *)
Theorem scrape_crypto_prices_record_shape (symbols : option string) (limit : Z)
    (coingecko : Z → outcome (list pydict)) (clock : nat → string)
    (records : list pydict) :
  scrape_crypto_prices symbols limit coingecko clock = Return records →
  ∀ (k : nat) (record : pydict),
    records !! k = Some record →
    dom record = price_record_fields
    ∧ record !! "timestamp" = Some (PStr (clock k))
    ∧ ∃ t, record !! "symbol" = Some (PStr (upper t)).
Proof. exact (scrape_records_shape symbols limit coingecko clock records). Qed.

Lemma scrape_crypto_prices_record_shape_witness :
  dom eth_record = price_record_fields
  ∧ eth_record !! "timestamp" = Some (PStr (sample_clock 0))
  ∧ ∃ t, eth_record !! "symbol" = Some (PStr (upper t)).
Proof.
  apply (scrape_crypto_prices_record_shape None 10 (λ _, Return [eth_coin])
           sample_clock [eth_record]).
  - vm_compute. reflexivity.
  - reflexivity.
Defined.

Lemma upper_char_comma (c : ascii) :
  Ascii.eqb (upper_char c) "," = Ascii.eqb c ",".
Proof. destruct c as [[] [] [] [] [] [] [] []]; reflexivity. Qed.

Lemma upper_char_idemp (c : ascii) : upper_char (upper_char c) = upper_char c.
Proof. destruct c as [[] [] [] [] [] [] [] []]; reflexivity. Qed.

Lemma upper_idemp (s : string) : upper (upper s) = upper s.
Proof.
  induction s as [|c s IH]; [reflexivity|].
  simpl. rewrite upper_char_idemp, IH. reflexivity.
Qed.

Lemma split_comma_upper (s : string) :
  split_comma (upper s) = upper <$> split_comma s.
Proof.
  induction s as [|c s IH]; [reflexivity|].
  simpl. rewrite upper_char_comma, IH.
  destruct (Ascii.eqb c ","); [reflexivity|].
  destruct (split_comma s); reflexivity.
Qed.

Lemma filtered_out_same_entries (sl sl' : list string) (coin : pydict) :
  (λ s, strip (upper s)) <$> sl = (λ s, strip (upper s)) <$> sl' →
  filtered_out (Some sl) coin = filtered_out (Some sl') coin.
Proof.
  intros Heq. unfold filtered_out.
  destruct sl as [|w ws], sl' as [|w' ws']; try discriminate; [reflexivity|].
  rewrite Heq. reflexivity.
Qed.

Lemma scrape_loop_same_filter (sl sl' : option (list string))
    (clock : nat → string) (data : list pydict) :
  (∀ coin, filtered_out sl coin = filtered_out sl' coin) →
  ∀ result, scrape_loop sl clock data result = scrape_loop sl' clock data result.
Proof.
  intros Hsame. induction data as [|coin data IH]; intros result; [reflexivity|].
  rewrite !scrape_loop_cons, Hsame.
  destruct (filtered_out sl' coin) as [[|]|e]; cbn [obind]; [apply IH| |reflexivity].
  destruct (crypto_info_of coin (clock (length result))); cbn [obind];
    [apply IH | reflexivity].
Qed.

(** X14: the fetcher's result depends on the filter string only through its
    entries, upper-cased and stripped: two non-empty filter strings with the
    same such entries give the same result on every upstream response, and
    so does a filter string and its upper-cased form. *)
Theorem scrape_crypto_prices_filter_spelling :
  (∀ (a b : string) (limit : Z) (coingecko : Z → outcome (list pydict))
     (clock : nat → string),
     a ≠ EmptyString → b ≠ EmptyString →
     (λ s, strip (upper s)) <$> split_comma a
       = (λ s, strip (upper s)) <$> split_comma b →
     scrape_crypto_prices (Some a) limit coingecko clock
       = scrape_crypto_prices (Some b) limit coingecko clock)
  ∧ (∀ (symbols : string) (limit : Z) (coingecko : Z → outcome (list pydict))
       (clock : nat → string),
       scrape_crypto_prices (Some (upper symbols)) limit coingecko clock
         = scrape_crypto_prices (Some symbols) limit coingecko clock).
Proof.
  assert (Hgen : ∀ (a b : string) (limit : Z)
                   (coingecko : Z → outcome (list pydict)) (clock : nat → string),
     a ≠ EmptyString → b ≠ EmptyString →
     (λ s, strip (upper s)) <$> split_comma a
       = (λ s, strip (upper s)) <$> split_comma b →
     scrape_crypto_prices (Some a) limit coingecko clock
       = scrape_crypto_prices (Some b) limit coingecko clock).
  { intros a b limit coingecko clock Ha Hb Heq. unfold scrape_crypto_prices.
    destruct (coingecko limit) as [data|e]; cbn [obind]; [|reflexivity].
    rewrite !symbol_list_of_nonempty by assumption.
    apply scrape_loop_same_filter. intros coin.
    apply filtered_out_same_entries, Heq. }
  split; [exact Hgen|].
  intros symbols limit coingecko clock.
  destruct symbols as [|c symbols]; [reflexivity|].
  apply Hgen; [discriminate | discriminate |].
  rewrite split_comma_upper, <- list_fmap_compose.
  apply list_fmap_ext. intros i s _. simpl. rewrite upper_idemp. reflexivity.
Qed.

Lemma scrape_crypto_prices_filter_spelling_witness :
  scrape_crypto_prices (Some "btc, eth") 10
    (λ _, Return [btc_coin; eth_coin; sol_coin]) sample_clock
  = scrape_crypto_prices (Some " BTC ,Eth") 10
      (λ _, Return [btc_coin; eth_coin; sol_coin]) sample_clock.
Proof.
  apply (proj1 scrape_crypto_prices_filter_spelling "btc, eth" " BTC ,Eth").
  - discriminate.
  - discriminate.
  - reflexivity.
Defined.

(** ** Further properties of the news fetcher and the news route *)

Lemma slice_to_length_nonneg {A} (limit : Z) (l : list A) :
  0 ≤ limit → Z.of_nat (length (slice_to limit l)) ≤ limit.
Proof.
  intros Hlimit. unfold slice_to, slice_bound.
  destruct (Z.ltb_spec limit 0); [lia|].
  rewrite length_take. lia.
Qed.

Lemma slice_to_negative {A} (limit : Z) (l : list A) :
  limit < 0 → slice_to limit l = take (length l - Z.to_nat (- limit)) l.
Proof.
  intros Hlimit. unfold slice_to, slice_bound.
  destruct (Z.ltb_spec limit 0); [|lia].
  f_equal. lia.
Qed.

Lemma news_loop_length (items : list rss_item) :
  ∀ news_data,
    (length (news_loop items news_data) ≤ length news_data + length items)%nat.
Proof.
  induction items as [|item items IH]; intros news_data.
  - simpl. lia.
  - rewrite news_loop_cons. destruct (parse_item item).
    + specialize (IH (news_data ++ [a])). rewrite length_app in IH.
      simpl in *. lia.
    + specialize (IH news_data). simpl. lia.
Qed.

(** X15: the item limit is a Python slice bound.  With a non-negative limit
    the fetcher returns at most that many news items (none for 0); with a
    negative limit it does not fail but parses the feed without its last
    [-limit] items. *)
Theorem scrape_crypto_news_limit (limit : Z) (items : list rss_item) :
  ∃ news_data,
    scrape_crypto_news limit (Return items) = Return news_data
    ∧ (0 ≤ limit → Z.of_nat (length news_data) ≤ limit)
    ∧ (limit < 0 →
       news_data = news_loop (take (length items - Z.to_nat (- limit)) items) []).
Proof.
  unfold scrape_crypto_news. cbn [obind]. eexists. split; [reflexivity|]. split.
  - intros Hlimit.
    pose proof (news_loop_length (slice_to limit items) []) as Hlen.
    pose proof (slice_to_length_nonneg limit items Hlimit).
    simpl in Hlen. lia.
  - intros Hlimit. rewrite slice_to_negative by assumption. reflexivity.
Qed.

Lemma scrape_crypto_news_limit_witness :
  scrape_crypto_news (-1) (Return [sample_item "1"; sample_item "2"; sample_item "3"])
  = Return (news_loop [sample_item "1"; sample_item "2"] []).
Proof.
  destruct (scrape_crypto_news_limit (-1)
              [sample_item "1"; sample_item "2"; sample_item "3"])
    as (news_data & Hrun & _ & Hneg).
  rewrite Hrun. f_equal. apply Hneg. lia.
Defined.

Lemma string_length_app (a b : string) :
  String.length (a +:+ b) = (String.length a + String.length b)%nat.
Proof. induction a as [|c a IH]; simpl; [reflexivity | rewrite IH; reflexivity]. Qed.

Lemma string_length_substring_0 (n : nat) (s : string) :
  (String.length (substring 0 n s) ≤ n)%nat.
Proof.
  revert s. induction n as [|n IH]; intros [|c s]; simpl; try lia.
  specialize (IH s). lia.
Qed.

Lemma lstrip_idemp (s : string) : lstrip (lstrip s) = lstrip s.
Proof.
  induction s as [|c s IH]; [reflexivity|].
  simpl. destruct (is_space c) eqn:Hc; [exact IH|].
  simpl. rewrite Hc. reflexivity.
Qed.

Lemma rstrip_idemp (s : string) : rstrip (rstrip s) = rstrip s.
Proof.
  induction s as [|c s IH]; [reflexivity|].
  simpl. destruct (rstrip s) as [|c' r] eqn:Hr.
  - destruct (is_space c) eqn:Hc; [reflexivity|]. simpl. rewrite Hc. reflexivity.
  - change (rstrip (String c (String c' r))) with
      (match rstrip (String c' r) with
       | EmptyString => if is_space c then EmptyString else String c EmptyString
       | r0 => String c r0
       end).
    rewrite IH. reflexivity.
Qed.

Lemma rstrip_lstrip_fixed (x : string) :
  rstrip x = x → rstrip (lstrip x) = lstrip x.
Proof.
  induction x as [|c x IH]; [reflexivity|].
  intros Hfix. simpl lstrip. destruct (is_space c) eqn:Hc; [|exact Hfix].
  apply IH. simpl in Hfix. rewrite Hc in Hfix.
  destruct (rstrip x) as [|c' r]; [discriminate|].
  injection Hfix as <-. reflexivity.
Qed.

(** Stripping a stripped string changes nothing. *)
Lemma strip_idemp (s : string) : strip (strip s) = strip s.
Proof.
  unfold strip.
  rewrite (rstrip_lstrip_fixed (rstrip s)) by apply rstrip_idemp.
  apply lstrip_idemp.
Qed.

Lemma parse_item_fields (item : rss_item) (n : news_item) :
  parse_item item = Return n →
  source n = "CoinDesk"
  ∧ (String.length (summary n) ≤ 203)%nat
  ∧ strip (title n) = title n
  ∧ strip (url n) = url n
  ∧ strip (published_at n) = published_at n.
Proof.
  unfold parse_item, find_text_strip.
  destruct (item_title item) as [t|]; [|discriminate].
  destruct (item_link item) as [l|]; [|discriminate].
  destruct (item_pubDate item) as [d|]; [|discriminate].
  cbn [obind]. intros [= <-]. cbn [source summary title url published_at].
  split; [reflexivity|]. split; [|repeat split; apply strip_idemp].
  set (desc_text := match item_description item with
                    | Some text => strip text
                    | None => "No description"
                    end).
  destruct (Nat.ltb_spec 200 (String.length desc_text)) as [Hlong|Hshort].
  - rewrite string_length_app.
    pose proof (string_length_substring_0 200 desc_text). simpl String.length. lia.
  - lia.
Qed.

Lemma news_loop_fields (items : list rss_item) :
  ∀ news_data (P : news_item → Prop),
    (∀ item n, parse_item item = Return n → P n) →
    Forall P news_data → Forall P (news_loop items news_data).
Proof.
  induction items as [|item items IH]; intros news_data P HP Hacc; [exact Hacc|].
  rewrite news_loop_cons. destruct (parse_item item) as [n|e] eqn:Hparse.
  - apply IH; [exact HP|]. apply Forall_app. split; [exact Hacc|].
    apply Forall_cons. split; [eapply HP, Hparse | apply Forall_nil_2].
  - apply IH; assumption.
Qed.

(** X16: every news item the fetcher returns has the source "CoinDesk", a
    summary of at most 203 characters (200 of the description and the
    ellipsis), and a title, URL and publication date without surrounding
    whitespace. *)
Theorem scrape_crypto_news_item_fields (limit : Z)
    (coindesk : outcome (list rss_item)) (news_data : list news_item) :
  scrape_crypto_news limit coindesk = Return news_data →
  Forall (λ n, source n = "CoinDesk"
               ∧ (String.length (summary n) ≤ 203)%nat
               ∧ strip (title n) = title n
               ∧ strip (url n) = url n
               ∧ strip (published_at n) = published_at n) news_data.
Proof.
  unfold scrape_crypto_news. destruct coindesk as [items|e]; [|discriminate].
  cbn [obind]. intros [= <-].
  apply news_loop_fields; [|apply Forall_nil_2].
  intros item n. apply parse_item_fields.
Qed.

Lemma scrape_crypto_news_item_fields_witness :
  Forall (λ n, source n = "CoinDesk"
               ∧ (String.length (summary n) ≤ 203)%nat
               ∧ strip (title n) = title n
               ∧ strip (url n) = url n
               ∧ strip (published_at n) = published_at n)
         (news_loop [long_item; sample_item "2"] []).
Proof.
  apply (scrape_crypto_news_item_fields 5 (Return [long_item; sample_item "2"])).
  reflexivity.
Defined.

(** X17: the news route never changes the state.  When the upstream call
    raises, it answers 500 with the exception's text in the detail;
    otherwise it returns the fetcher's news items together with their
    number. *)
Theorem get_crypto_news_response (limit : Z) (coindesk : outcome (list rss_item))
    (s : state) :
  (get_crypto_news limit coindesk s).2 = s
  ∧ match coindesk with
    | Raise e =>
        (get_crypto_news limit coindesk s).1
        = Raise (HTTPException 500 ("Failed to fetch news: " +:+ str_exn e))
    | Return items =>
        ∃ result,
          scrape_crypto_news limit coindesk = Return result
          ∧ (get_crypto_news limit coindesk s).1
            = Return {| news := result; news_count := length result |}
    end.
Proof.
  unfold get_crypto_news, try_except, bind, lift.
  destruct coindesk as [items|e]; cbn [scrape_crypto_news obind fst snd].
  - split; [reflexivity|]. eexists. split; reflexivity.
  - split; reflexivity.
Qed.

(** ** Further properties of the statistics and configuration routes *)

Lemma counts_total_insert (m : gmap pyval nat) (v : pyval) (n : nat) :
  m !! v = None → counts_total (<[v := n]> m) = (n + counts_total m)%nat.
Proof.
  intros Hnone. unfold counts_total.
  apply (map_fold_insert_L (λ _ n acc, (n + acc)%nat)); [|exact Hnone].
  intros. lia.
Qed.

Lemma counts_total_count_symbol (m : gmap pyval nat) (r : pydict) :
  counts_total (count_symbol m r) = (counts_total m + 1)%nat.
Proof.
  unfold count_symbol. destruct (m !! symbol_of r) as [n|] eqn:Hm.
  - rewrite <- (insert_delete_id m (symbol_of r) n Hm) at 2.
    rewrite <- insert_delete_eq.
    rewrite !counts_total_insert by apply lookup_delete_eq. lia.
  - rewrite counts_total_insert by assumption. lia.
Qed.

Lemma foldl_count_symbol_total (data : list pydict) :
  ∀ m, counts_total (foldl count_symbol m data)
       = (counts_total m + length data)%nat.
Proof.
  induction data as [|r data IH]; intros m; simpl.
  - lia.
  - rewrite IH, counts_total_count_symbol. lia.
Qed.

Lemma get_data_statistics_run (s : state) :
  get_data_statistics s =
    (Return match crypto_data_store s with
            | [] => StatsMessage "No data available"
            | _ :: _ =>
                Statistics
                  {| total_records := length (crypto_data_store s);
                     unique_symbols := size (foldl count_symbol ∅ (crypto_data_store s));
                     symbol_counts := foldl count_symbol ∅ (crypto_data_store s);
                     last_updated :=
                       match last (crypto_data_store s) with
                       | Some record => dict_get record "timestamp" PNone
                       | None => PNone
                       end |}
            end, s).
Proof.
  unfold get_data_statistics, try_except, bind, load_data, get_store.
  destruct (crypto_data_store s); reflexivity.
Qed.

Lemma length_remove_dups_le (l : list pyval) :
  (length (remove_dups l) ≤ length l)%nat.
Proof.
  induction l as [|x l IH]; simpl; [lia|].
  case_decide; simpl; lia.
Qed.

(** X18: whenever the statistics route returns statistics, the per-symbol
    counts add up to [total_records], and there is at least one and at most
    [total_records] distinct symbols. *)
Theorem statistics_counts_add_up (s : state) (stats : statistics) :
  (get_data_statistics s).1 = Return (Statistics stats) →
  counts_total (symbol_counts stats) = total_records stats
  ∧ (1 ≤ unique_symbols stats ≤ total_records stats)%nat.
Proof.
  rewrite get_data_statistics_run. cbn [fst].
  destruct (crypto_data_store s) as [|r data] eqn:Hstore; [discriminate|].
  intros [= <-]. cbn [symbol_counts total_records unique_symbols].
  change (foldl count_symbol (count_symbol ∅ r) data)
    with (foldl count_symbol ∅ (r :: data)).
  change (S (length data)) with (length (r :: data)).
  split.
  - rewrite foldl_count_symbol_total.
    assert (Hempty : counts_total ∅ = 0%nat) by apply map_fold_empty.
    rewrite Hempty. reflexivity.
  - rewrite foldl_count_symbol_size.
    pose proof (length_remove_dups_le (symbol_of <$> r :: data)) as Hle.
    rewrite length_fmap in Hle. split; [|exact Hle].
    destruct (remove_dups (symbol_of <$> r :: data)) as [|x l] eqn:Hdups;
      [|simpl; lia].
    exfalso. apply (not_elem_of_nil (symbol_of r)).
    rewrite <- Hdups, elem_of_remove_dups, fmap_cons. apply list_elem_of_here.
Qed.

Lemma statistics_counts_add_up_witness :
  ∃ stats,
    (get_data_statistics (set_store [btc_record; eth_record; btc_record] init_state)).1
      = Return (Statistics stats)
    ∧ counts_total (symbol_counts stats) = total_records stats
    ∧ (1 ≤ unique_symbols stats ≤ total_records stats)%nat.
Proof.
  eexists. split; [vm_compute; reflexivity|].
  apply (statistics_counts_add_up
           (set_store [btc_record; eth_record; btc_record] init_state)).
  vm_compute. reflexivity.
Defined.

Lemma foldl_count_symbol_Permutation (data data' : list pydict) :
  data ≡ₚ data' →
  foldl count_symbol ∅ data = foldl count_symbol ∅ data'.
Proof.
  intros Hperm. apply map_eq. intros v.
  rewrite !foldl_count_symbol_lookup, lookup_empty.
  assert (Hsym : symbol_of <$> data ≡ₚ symbol_of <$> data')
    by (rewrite Hperm; reflexivity).
  assert (Hocc : occurrences v (symbol_of <$> data)
                 = occurrences v (symbol_of <$> data')).
  { unfold occurrences. apply Permutation_length. rewrite Hsym. reflexivity. }
  rewrite Hocc.
  destruct (decide (v ∈ symbol_of <$> data)) as [Hin|Hnin].
  - rewrite decide_True by (rewrite <- Hsym; exact Hin). reflexivity.
  - rewrite decide_False by (rewrite <- Hsym; exact Hnin). reflexivity.
Qed.

(** X19: the record count, the number of distinct symbols and the
    per-symbol counts do not depend on the order of the stored records: two
    stores holding the same records in different orders get the same
    values. *)
Theorem statistics_order_independent (s1 s2 : state) (stats1 stats2 : statistics) :
  crypto_data_store s1 ≡ₚ crypto_data_store s2 →
  (get_data_statistics s1).1 = Return (Statistics stats1) →
  (get_data_statistics s2).1 = Return (Statistics stats2) →
  total_records stats1 = total_records stats2
  ∧ unique_symbols stats1 = unique_symbols stats2
  ∧ symbol_counts stats1 = symbol_counts stats2.
Proof.
  intros Hperm. rewrite !get_data_statistics_run. cbn [fst].
  destruct (crypto_data_store s1) as [|r1 d1] eqn:H1; [discriminate|].
  destruct (crypto_data_store s2) as [|r2 d2] eqn:H2; [discriminate|].
  intros [= <-] [= <-]. cbn [symbol_counts total_records unique_symbols].
  pose proof (foldl_count_symbol_Permutation _ _ Hperm) as Hfold.
  change (foldl count_symbol (count_symbol ∅ r1) d1
          = foldl count_symbol (count_symbol ∅ r2) d2) in Hfold.
  rewrite Hfold.
  split; [exact (Permutation_length Hperm) | split; reflexivity].
Qed.

Lemma statistics_order_independent_witness :
  ∃ stats1 stats2,
    (get_data_statistics (set_store [btc_record; eth_record; btc_record] init_state)).1
      = Return (Statistics stats1)
    ∧ (get_data_statistics (set_store [eth_record; btc_record; btc_record] init_state)).1
      = Return (Statistics stats2)
    ∧ total_records stats1 = total_records stats2
    ∧ unique_symbols stats1 = unique_symbols stats2
    ∧ symbol_counts stats1 = symbol_counts stats2.
Proof.
  eexists. eexists.
  split; [vm_compute; reflexivity|]. split; [vm_compute; reflexivity|].
  apply (statistics_order_independent
           (set_store [btc_record; eth_record; btc_record] init_state)
           (set_store [eth_record; btc_record; btc_record] init_state)).
  - simpl. apply Permutation_swap.
  - vm_compute. reflexivity.
  - vm_compute. reflexivity.
Defined.

Lemma served_store_length (s : state) :
  served s → (length (crypto_data_store s) ≤ 1000)%nat.
Proof.
  induction 1 as [|request now s _ IH|o s _ IH].
  - simpl. lia.
  - rewrite rate_limit_check_store. exact IH.
  - apply run_op_length_le, IH.
Qed.

(** X20: the read-only routes leave the state as it was and agree on the
    size of the store: in every state of the running service the
    configuration route reports the number of stored records, at most 1000;
    the history route with limit 0 reports the same total, and so does the
    statistics route whenever it returns statistics. *)
Theorem read_only_routes_agree (s : state) :
  served s →
  ∃ config history,
    get_config s = (Return config, s)
    ∧ get_stored_data 0 s = (Return history, s)
    ∧ (get_data_statistics s).2 = s
    ∧ current_records config = length (crypto_data_store s)
    ∧ (current_records config ≤ 1000)%nat
    ∧ max_requests_per_minute config = 60%nat
    ∧ history_total_records history = current_records config
    ∧ (∀ stats, (get_data_statistics s).1 = Return (Statistics stats) →
         total_records stats = current_records config).
Proof.
  intros Hserved. eexists. eexists.
  split; [reflexivity|]. split; [reflexivity|].
  rewrite get_data_statistics_run.
  cbn [fst snd current_records max_requests_per_minute history_total_records].
  split; [reflexivity|]. split; [reflexivity|].
  split; [apply served_store_length, Hserved|].
  split; [reflexivity|]. split; [reflexivity|].
  intros stats. destruct (crypto_data_store s); [discriminate|].
  intros [= <-]. reflexivity.
Qed.

Lemma read_only_routes_agree_witness :
  let s := run_op (OpSave [btc_record; eth_record])
             (rate_limit_check sample_request 3 init_state).2 in
  ∃ config history,
    get_config s = (Return config, s)
    ∧ get_stored_data 0 s = (Return history, s)
    ∧ (get_data_statistics s).2 = s
    ∧ current_records config = length (crypto_data_store s)
    ∧ (current_records config ≤ 1000)%nat
    ∧ max_requests_per_minute config = 60%nat
    ∧ history_total_records history = current_records config
    ∧ (∀ stats, (get_data_statistics s).1 = Return (Statistics stats) →
         total_records stats = current_records config).
Proof.
  intros s. apply (read_only_routes_agree s).
  apply served_op, served_check, served_init.
Defined.

(** ** Properties of whole requests *)

Lemma Depends_verify_api_key_state {A} (handler : M A) (request : Request)
    (x_api_key : option string) (now : Z) (s : state) :
  (Depends_verify_api_key request x_api_key now handler s).2
    = (rate_limit_check request now s).2
  ∨ (Depends_verify_api_key request x_api_key now handler s).2
    = (handler (rate_limit_check request now s).2).2.
Proof.
  unfold Depends_verify_api_key, bind. rewrite verify_api_key_run.
  case_decide; [left; reflexivity|].
  case_decide; [right | left]; reflexivity.
Qed.

Lemma get_crypto_prices_state (symbols : option string)
    (coingecko : Z → outcome (list pydict)) (clock : nat → string) (s : state) :
  (get_crypto_prices symbols coingecko clock s).2 = s
  ∨ ∃ B, (get_crypto_prices symbols coingecko clock s).2 = run_op (OpSave B) s.
Proof.
  destruct (scrape_crypto_prices symbols 10 coingecko clock) as [R|e] eqn:HR.
  - right. exists (crypto_data_store s ++ R).
    rewrite (get_crypto_prices_run _ _ _ _ _ HR). cbn [snd run_op].
    rewrite save_data_run. reflexivity.
  - left. unfold get_crypto_prices, try_except, bind, lift.
    rewrite HR. reflexivity.
Qed.

Lemma get_crypto_news_state (limit : Z) (coindesk : outcome (list rss_item))
    (s : state) :
  (get_crypto_news limit coindesk s).2 = s.
Proof.
  unfold get_crypto_news, try_except, bind, lift.
  destruct coindesk as [items|e]; reflexivity.
Qed.

(** X21: every request to the prices, news, history, statistics,
    configuration or clear route, whoever sends it with whatever key at
    whatever time and whatever the upstream services answer, takes a state
    of the running service to a state of the running service; so after any
    sequence of such requests the store holds at most 1000 records and each
    client at most 60 timestamps. *)
Theorem requests_preserve_bounds (request : Request) (x_api_key : option string)
    (now : Z) (call : api_call) (s : state) :
  served s →
  served (run_call request x_api_key now call s)
  ∧ (length (crypto_data_store (run_call request x_api_key now call s)) ≤ 1000)%nat
  ∧ ∀ client_ip,
      (length (times_of (request_times (run_call request x_api_key now call s))
                        client_ip) ≤ 60)%nat.
Proof.
  intros Hserved.
  assert (Hchecked : served (rate_limit_check request now s).2)
    by (apply served_check, Hserved).
  assert (Hcall : served (run_call request x_api_key now call s)).
  { destruct call as [symbols coingecko clock|limit coindesk|limit| | |];
      unfold run_call, GET_crypto_prices;
      match goal with
      | |- served (Depends_verify_api_key _ _ _ ?h _).2 =>
          destruct (Depends_verify_api_key_state h request x_api_key now s)
            as [-> | ->]; [exact Hchecked|]
      end.
    - destruct (get_crypto_prices_state symbols coingecko clock
                  (rate_limit_check request now s).2) as [-> | [B ->]];
        [exact Hchecked | apply served_op, Hchecked].
    - rewrite get_crypto_news_state. exact Hchecked.
    - exact Hchecked.
    - rewrite get_data_statistics_run. exact Hchecked.
    - exact Hchecked.
    - apply (served_op OpClear), Hchecked. }
  split; [exact Hcall|]. split.
  - apply served_store_length, Hcall.
  - apply served_times_length, Hcall.
Qed.

Lemma requests_preserve_bounds_witness :
  let s := run_call sample_request (Some "kingvon") 0
             (CallPrices None (λ _, Return [btc_coin; eth_coin]) sample_clock)
             init_state in
  served (run_call sample_request None 5 CallClear s)
  ∧ (length (crypto_data_store (run_call sample_request None 5 CallClear s))
     ≤ 1000)%nat
  ∧ ∀ client_ip,
      (length (times_of (request_times (run_call sample_request None 5 CallClear s))
                        client_ip) ≤ 60)%nat.
Proof.
  intros s.
  apply (requests_preserve_bounds sample_request None 5 CallClear s).
  apply (requests_preserve_bounds sample_request (Some "kingvon") 0
           (CallPrices None (λ _, Return [btc_coin; eth_coin]) sample_clock)
           init_state).
  apply served_init.
Defined.

(** X22: after a successful price request that fetched at least one record,
    the statistics route returns statistics (not the no-data message), and
    their [last_updated] is the timestamp of the last fetched record, that
    is, the last clock reading of the fetch. *)
Theorem statistics_after_fetch (symbols : option string)
    (coingecko : Z → outcome (list pydict)) (clock : nat → string)
    (R : list pydict) (s : state) :
  scrape_crypto_prices symbols 10 coingecko clock = Return R →
  (0 < length R)%nat →
  let s' := (get_crypto_prices symbols coingecko clock s).2 in
  ∃ stats,
    get_data_statistics s' = (Return (Statistics stats), s')
    ∧ last_updated stats = PStr (clock (length R - 1)%nat).
Proof.
  intros HR Hlen s'.
  destruct (last R) as [r|] eqn:Hlast; [|apply last_None in Hlast; subst R; simpl in Hlen; lia].
  assert (Hstore : last (crypto_data_store s') = Some r).
  { subst s'. rewrite (get_crypto_prices_run _ _ _ _ _ HR).
    cbn [snd]. rewrite store_set_store. apply save_data_last.
    rewrite last_app, Hlast. reflexivity. }
  assert (Hstamp : r !! "timestamp" = Some (PStr (clock (length R - 1)%nat))).
  { rewrite last_lookup in Hlast.
    replace (pred (length R)) with (length R - 1)%nat in Hlast by lia.
    apply (scrape_records_shape _ _ _ _ _ HR _ _ Hlast). }
  rewrite get_data_statistics_run.
  destruct (crypto_data_store s') as [|r0 store] eqn:Hs'; [discriminate|].
  eexists. split; [reflexivity|].
  cbn [last_updated]. rewrite Hstore. unfold dict_get. rewrite Hstamp. reflexivity.
Qed.

Lemma statistics_after_fetch_witness :
  let s := set_store [btc_record] init_state in
  let s' := (get_crypto_prices None (λ _, Return [btc_coin; eth_coin]) sample_clock s).2 in
  ∃ stats,
    get_data_statistics s' = (Return (Statistics stats), s')
    ∧ last_updated stats = PStr (sample_clock (2 - 1)%nat).
Proof.
  intros s.
  apply (statistics_after_fetch None (λ _, Return [btc_coin; eth_coin]) sample_clock
           [record_of "BTC" "Bitcoin" 67000 (sample_clock 0);
            record_of "ETH" "Ethereum" 3500 (sample_clock 1)] s).
  - vm_compute. reflexivity.
  - simpl. lia.
Defined.
